(** * Cursor chat launcher scripts: a shallow embedding

    Embeds [.cursor/scripts/open_cursor_chat.py] and
    [.cursor/scripts/run_new_agent.py].  Python [str] values are modelled
    as [string]; the two characters the scripts treat specially (backslash,
    double quote) are ASCII, so the byte view and the code-point view of a
    text agree on every operation used here. *)

From Stdlib Require Import Strings.String Strings.Ascii Lists.List Bool.Bool.
From Stdlib Require Import ZArith.
Import ListNotations.

Local Open Scope list_scope.
Local Open Scope string_scope.

(** ** Python primitives used by the scripts *)

Module Py.

(** The double quote, the backslash and the line feed. *)
Definition dquote : ascii := "034"%char.
Definition backslash : ascii := "092"%char.
Definition newline : ascii := "010"%char.

Definition chr (c : ascii) : string := String c EmptyString.

Definition DQ : string := chr dquote.
Definition BS : string := chr backslash.
Definition NL : string := chr newline.

(** [s.startswith(p)] *)
Fixpoint startswith (p s : string) : bool :=
  match p, s with
  | EmptyString, _ => true
  | String _ _, EmptyString => false
  | String a p', String b s' => Ascii.eqb a b && startswith p' s'
  end.

(** [str.replace(old, new)] for a non-empty [old]: scan left to right, on
    every match emit [new] and jump past the match.  [skip] counts the
    characters of a match still to be jumped over. *)
Fixpoint replace_from (old new : string) (skip : nat) (s : string) : string :=
  match s with
  | EmptyString => EmptyString
  | String c s' =>
      match skip with
      | S k => replace_from old new k s'
      | O =>
          if startswith old s
          then new ++ replace_from old new (String.length old - 1) s'
          else String c (replace_from old new 0 s')
      end
  end.

(** [str.replace(old, new)] with an empty [old]: [new] goes before every
    character and at the end. *)
Fixpoint intersperse (new s : string) : string :=
  match s with
  | EmptyString => new
  | String c s' => new ++ String c (intersperse new s')
  end.

Definition replace (old new s : string) : string :=
  match old with
  | EmptyString => intersperse new s
  | String _ _ => replace_from old new 0 s
  end.

(** [needle in hay] on strings. *)
Fixpoint contains (needle hay : string) : bool :=
  startswith needle hay ||
  match hay with
  | EmptyString => false
  | String _ hay' => contains needle hay'
  end.

(** Truth value of an [Optional[str]]: [None] and [''] are false. *)
Definition truthy (o : option string) : bool :=
  match o with
  | None => false
  | Some EmptyString => false
  | Some (String _ _) => true
  end.

(** What an f-string prints for an [Optional[str]]. *)
Definition fmt (o : option string) : string :=
  match o with
  | None => "None"
  | Some s => s
  end.

(** Occurrence of a character in a string, as a proposition. *)
Fixpoint occurs (c : ascii) (s : string) : Prop :=
  match s with
  | EmptyString => False
  | String a s' => a = c \/ occurs c s'
  end.

(** Character-wise substitution: each character is replaced by a string. *)
Fixpoint subst_chars (f : ascii -> string) (s : string) : string :=
  match s with
  | EmptyString => EmptyString
  | String c s' => f c ++ subst_chars f s'
  end.

End Py.

(** ** Processes, output and exceptions *)

Module Proc.

(** The exceptions [subprocess.run] can raise, each with its message.
    All three are subclasses of [Exception]. *)
Inductive Exn : Type :=
| FileNotFoundError (msg : string)
| TimeoutExpired (msg : string)
| OtherException (msg : string).

(** [str(e)] *)
Definition exn_str (e : Exn) : string :=
  match e with
  | FileNotFoundError m => m
  | TimeoutExpired m => m
  | OtherException m => m
  end.

(** The fields of [subprocess.CompletedProcess] the scripts read. *)
Record CompletedProcess : Type := mkCompleted {
  returncode : Z;
  stderr : string
}.

Inductive RunOutcome : Type :=
| Completed (result : CompletedProcess)
| Raises (e : Exn).

(** The host: its [sys.platform], its working directory, and what running a
    command line does.  Every command line is run at most once per call of
    the dispatcher, so a function of the argument vector loses nothing. *)
Record World : Type := mkWorld {
  platform : string;
  cwd : string;
  run_result : list string -> RunOutcome
}.

(** What a run of a script does that can be observed from outside. *)
Inductive Event : Type :=
| Spawn (argv : list string)
| Print (line : string)
| Sleep (milliseconds : nat).

Inductive Result (A : Type) : Type :=
| Return (a : A)
| Raise (e : Exn).
Arguments Return {A} a.
Arguments Raise {A} e.

(** A computation: the events it produced, and its value or the exception
    that ended it. *)
Definition M (A : Type) : Type := (list Event * Result A)%type.

Definition ret {A} (a : A) : M A := ([], Return a).

Definition bind {A B} (m : M A) (f : A -> M B) : M B :=
  match m with
  | (t, Return a) => let (t', r) := f a in ((t ++ t')%list, r)
  | (t, Raise e) => (t, Raise e)
  end.

(** [try: m  except ... as e: h e] *)
Definition try_except {A} (m : M A) (h : Exn -> M A) : M A :=
  match m with
  | (t, Raise e) => let (t', r) := h e in ((t ++ t')%list, r)
  | (t, Return a) => (t, Return a)
  end.

Definition raise {A} (e : Exn) : M A := ([], Raise e).

Definition print (line : string) : M unit := ([Print line], Return tt).

Definition sleep (milliseconds : nat) : M unit :=
  ([Sleep milliseconds], Return tt).

(** [subprocess.run(argv, check=False, ...)] *)
Definition subprocess_run (w : World) (argv : list string)
  : M CompletedProcess :=
  ([Spawn argv],
   match run_result w argv with
   | Completed r => Return r
   | Raises e => Raise e
   end).

Definition trace {A} (m : M A) : list Event := fst m.
Definition result {A} (m : M A) : Result A := snd m.

(** A block of a function body either executes [return b] or runs off its
    end; [or_else] continues with the rest of the body in the second case. *)
Definition or_else (m : M (option bool)) (k : M bool) : M bool :=
  bind m (fun r => match r with Some b => ret b | None => k end).

Definition spawned (argv : list string) (t : list Event) : Prop :=
  In (Spawn argv) t.

Definition printed (line : string) (t : list Event) : Prop :=
  In (Print line) t.

End Proc.

Declare Scope py_scope.
Delimit Scope py_scope with py.
Notation "x <- c1 ;; c2" := (Proc.bind c1 (fun x => c2))
  (at level 61, c1 at next level, right associativity) : py_scope.
Notation "c1 ;; c2" := (Proc.bind c1 (fun _ => c2))
  (at level 61, right associativity) : py_scope.

(** Text shared by the two scripts. *)
Module Common.

Definition i16 : string := "                ".
Definition i20 : string := "                    ".
Definition i24 : string := "                        ".

Definition activate_script : string :=
  "tell application " ++ Py.DQ ++ "Cursor" ++ Py.DQ ++ " to activate".

Definition activate_cmd : list string := ["osascript"; "-e"; activate_script].

(** The script that only opens a new chat tab. *)
Definition open_tab_script : string :=
  Py.NL ++ i16 ++ "tell application " ++ Py.DQ ++ "System Events" ++ Py.DQ ++
  Py.NL ++ i20 ++ "tell process " ++ Py.DQ ++ "Cursor" ++ Py.DQ ++
  Py.NL ++ i24 ++ "keystroke " ++ Py.DQ ++ "t" ++ Py.DQ ++ " using command down" ++
  Py.NL ++ i20 ++ "end tell" ++
  Py.NL ++ i16 ++ "end tell" ++
  Py.NL ++ i16.

Definition permission_guidance : list string :=
  [ "⚠️  macOS Accessibility Permission Required";
    "   To enable keystroke automation:";
    "   1. Open System Settings → Privacy & Security → Accessibility";
    "   2. Enable 'Terminal' or 'Python' (whichever you're using)";
    "   3. Or run this script from Terminal.app (it may already have permissions)";
    Py.NL ++ "   Alternatively, Cursor is now activated - press Cmd+T manually" ].

Definition not_found_guidance : list string :=
  [ "❌ Cursor CLI not found.";
    "   Install it with: curl https://cursor.com/install -fsS | bash";
    "   Or use AppleScript method (macOS only)" ].

(** A run of [print] calls. *)
Fixpoint print_all (ls : list string) : Proc.M unit :=
  match ls with
  | [] => Proc.ret tt
  | l :: ls' => Proc.bind (Proc.print l) (fun _ => print_all ls')
  end.

(** [result.stderr] mentions the accessibility permission error. *)
Definition permission_error (err : string) : bool :=
  Py.contains "not allowed to send keystrokes" err || Py.contains "1002" err.

(** [workspace or Path.cwd()], as a string. *)
Definition workspace_path (w : Proc.World) (workspace : option string) : string :=
  match workspace with
  | Some p => p
  | None => Proc.cwd w
  end.

End Common.

(** ** [argparse], as far as the scripts use it

    The scripts declare options that take one value each, and get [-h] /
    [--help] for free.  [argparse] first scans the command line into
    occurrences of options and then runs the action of each occurrence, in
    order.  The scan (spelling of the flags, abbreviations, [--opt=value])
    is the library's; what follows models the second step. *)

Module Argparse.

(** One scanned item of the command line: the help flag; an option, named
    by the attribute it fills, with its value after [type] was applied to it
    (for [type=Path], the text of the path); an option that has no value
    after it; anything the parser does not know. *)
Inductive Token : Type :=
| Help
| Opt (dest value : string)
| NoValue (dest : string)
| Unrecognized (text : string).

(** [parse_args] returns a namespace or leaves through [sys.exit]. *)
Inductive Parse (A : Type) : Type :=
| Parsed (args : A)
| SystemExit (code : Z).
Arguments Parsed {A} args.
Arguments SystemExit {A} code.

(** What the parser does with an option and its value: the option is not
    declared, the value is not among the declared [choices], or it is
    stored. *)
Inductive Stored (A : Type) : Type :=
| Undeclared
| Refused
| Kept (args : A).
Arguments Undeclared {A}.
Arguments Refused {A}.
Arguments Kept {A} args.

Section Parser.

Context {A : Type}.
Variable store : string -> string -> A -> Stored A.
Variable declared : string -> bool.

(** The help action prints the help and exits with 0 where it stands; a
    refused value and a missing value are usage errors where they stand
    (exit 2); what the parser does not know is collected, and reported as
    a usage error once the end is reached. *)
Fixpoint parse_known (tokens : list Token) (ns : A) (extras : bool)
  : Parse A :=
  match tokens with
  | [] => if extras then SystemExit 2 else Parsed ns
  | Help :: _ => SystemExit 0
  | Opt dest value :: rest =>
      match store dest value ns with
      | Undeclared => parse_known rest ns true
      | Refused => SystemExit 2
      | Kept ns' => parse_known rest ns' extras
      end
  | NoValue dest :: rest =>
      if declared dest then SystemExit 2 else parse_known rest ns true
  | Unrecognized _ :: rest => parse_known rest ns true
  end.

Definition parse_args (defaults : A) (tokens : list Token) : Parse A :=
  parse_known tokens defaults false.

End Parser.

End Argparse.

(** ** [open_cursor_chat.py] *)

Module OpenCursorChat.
Import Proc Common.
Local Open Scope py_scope.

(** [text.replace('\\', '\\\\').replace('"', '\\"')] *)
Definition escape_applescript_string (text : string) : string :=
  Py.replace Py.DQ (Py.BS ++ Py.DQ)
    (Py.replace Py.BS (Py.BS ++ Py.BS) text).

(** The f-string that opens a tab, types the prompt and presses Enter. *)
Definition chat_script (escaped_prompt : string) : string :=
  Py.NL ++ i16 ++ "tell application " ++ Py.DQ ++ "System Events" ++ Py.DQ ++
  Py.NL ++ i20 ++ "tell process " ++ Py.DQ ++ "Cursor" ++ Py.DQ ++
  Py.NL ++ i24 ++ "keystroke " ++ Py.DQ ++ "t" ++ Py.DQ ++ " using command down" ++
  Py.NL ++ i24 ++ "delay 0.5" ++
  Py.NL ++ i24 ++ "keystroke " ++ Py.DQ ++ escaped_prompt ++ Py.DQ ++
  Py.NL ++ i24 ++ "delay 0.2" ++
  Py.NL ++ i24 ++ "key code 36" ++
  Py.NL ++ i20 ++ "end tell" ++
  Py.NL ++ i16 ++ "end tell" ++
  Py.NL ++ i16.

(** In the branch that builds it, [prompt] is a non-empty [str]. *)
Definition agent_cmd (prompt : option string) : list string :=
  ["cursor-agent"; "-p"; Py.fmt prompt].

Definition keystroke_cmd (prompt : option string) : list string :=
  ["osascript"; "-e";
   if Py.truthy prompt
   then chat_script (escape_applescript_string (Py.fmt prompt))
   else open_tab_script].

Definition launch_cmd (w : World) (workspace : option string) : list string :=
  ["cursor"; workspace_path w workspace].

(** Lines 42-59: the [cursor-agent] attempt. *)
Definition agent_block (w : World) (prompt : option string) : M (option bool) :=
  if Py.truthy prompt then
    try_except
      (result <- subprocess_run w (agent_cmd prompt) ;;
       if (returncode result =? 0)%Z
       then (print "✅ Opened chat with cursor-agent CLI" ;; ret (Some true))
       else ret None)
      (fun e =>
         match e with
         | FileNotFoundError _ => ret None
         | TimeoutExpired _ => ret None
         | OtherException _ => ret None
         end)
  else ret None.

(** Lines 62-134: the AppleScript attempt. *)
Definition applescript_block (w : World) (prompt : option string)
  : M (option bool) :=
  if String.eqb (platform w) "darwin" then
    try_except
      (result <- subprocess_run w activate_cmd ;;
       if negb (returncode result =? 0)%Z
       then (print "⚠️  Could not activate Cursor. Is it installed?" ;;
             ret (Some false))
       else
         (sleep 500 ;;
          result <- subprocess_run w (keystroke_cmd prompt) ;;
          if (returncode result =? 0)%Z
          then (print "✅ Opened new chat in Cursor (using AppleScript)" ;;
                (if Py.truthy prompt
                 then print ("   Prompt: " ++ Py.fmt prompt)
                 else ret tt) ;;
                ret (Some true))
          else if permission_error (stderr result)
          then (print_all permission_guidance ;;
                (if Py.truthy prompt
                 then print ("   Then paste this prompt: " ++ Py.fmt prompt)
                 else ret tt) ;;
                ret (Some true))
          else (print ("⚠️  AppleScript method failed: " ++ stderr result) ;;
                ret None)))
      (fun e =>
         print ("⚠️  AppleScript method failed: " ++ exn_str e) ;; ret None)
  else ret None.

(** Lines 136-150: the plain [cursor] launch. *)
Definition launch_block (w : World) (prompt workspace : option string)
  : M bool :=
  try_except
    (subprocess_run w (launch_cmd w workspace) ;;
     print "✅ Opened Cursor" ;;
     (if negb (Py.truthy prompt)
      then print "   💡 Press Cmd+T to open a new chat"
      else print ("   💡 Press Cmd+T and paste: " ++ Py.fmt prompt)) ;;
     ret true)
    (fun e =>
       match e with
       | FileNotFoundError _ => print_all not_found_guidance ;; ret false
       | _ => raise e
       end).

Definition open_cursor_chat_hybrid (w : World) (prompt workspace : option string)
  : M bool :=
  or_else (agent_block w prompt)
    (or_else (applescript_block w prompt)
       (launch_block w prompt workspace)).

Record Args : Type := mkArgs {
  prompt : option string;
  workspace : option string
}.

(** [sys.exit(0 if success else 1)]; an exception that reaches the top
    level ends the interpreter with status 1. *)
Definition exit_code (r : Result bool) : Z :=
  match r with
  | Return true => 0
  | Return false => 1
  | Raise _ => 1
  end.

(** Lines 167-176: the two [add_argument] calls. *)
Definition store (dest value : string) (args : Args) : Argparse.Stored Args :=
  if String.eqb dest "prompt"
  then Argparse.Kept (mkArgs (Some value) (workspace args))
  else if String.eqb dest "workspace"
  then Argparse.Kept (mkArgs (prompt args) (Some value))
  else Argparse.Undeclared.

Definition declared (dest : string) : bool :=
  String.eqb dest "prompt" || String.eqb dest "workspace".

(** Line 178: [parser.parse_args()]; every attribute defaults to [None]. *)
Definition parse_args (tokens : list Argparse.Token) : Argparse.Parse Args :=
  Argparse.parse_args store declared (mkArgs None None) tokens.

(** Lines 153-181.  The events are those of the dispatcher; the help and
    usage texts [argparse] writes before it exits are not recorded. *)
Definition main (w : World) (tokens : list Argparse.Token)
  : list Event * Z :=
  match parse_args tokens with
  | Argparse.SystemExit code => ([], code)
  | Argparse.Parsed args =>
      let m := open_cursor_chat_hybrid w (prompt args) (workspace args) in
      (trace m, exit_code (result m))
  end.

End OpenCursorChat.

(** ** [run_new_agent.py] *)

Module RunNewAgent.
Import Proc Common.
Local Open Scope py_scope.

(** [text.replace('\\', '\\\\').replace('"', '\\"')] *)
Definition escape_applescript_string (text : string) : string :=
  Py.replace Py.DQ (Py.BS ++ Py.DQ)
    (Py.replace Py.BS (Py.BS ++ Py.BS) text).

(** Lines 46-50: the prompt with the model annotation. *)
Definition full_prompt (prompt model : option string) : option string :=
  if Py.truthy model && Py.truthy prompt
  then Some (Py.fmt prompt ++ " (model: " ++ Py.fmt model ++ ")")
  else if Py.truthy model
  then Some ("(model: " ++ Py.fmt model ++ ")")
  else prompt.

Definition chat_script (escaped_prompt : string) : string :=
  Py.NL ++ i16 ++ "tell application " ++ Py.DQ ++ "System Events" ++ Py.DQ ++
  Py.NL ++ i20 ++ "tell process " ++ Py.DQ ++ "Cursor" ++ Py.DQ ++
  Py.NL ++ i24 ++ "-- Open new chat tab" ++
  Py.NL ++ i24 ++ "keystroke " ++ Py.DQ ++ "t" ++ Py.DQ ++ " using command down" ++
  Py.NL ++ i24 ++ "delay 1.0" ++
  Py.NL ++ i24 ++ "-- Type the prompt" ++
  Py.NL ++ i24 ++ "keystroke " ++ Py.DQ ++ escaped_prompt ++ Py.DQ ++
  Py.NL ++ i24 ++ "delay 0.5" ++
  Py.NL ++ i24 ++ "-- Submit (Enter)" ++
  Py.NL ++ i24 ++ "key code 36" ++
  Py.NL ++ i20 ++ "end tell" ++
  Py.NL ++ i16 ++ "end tell" ++
  Py.NL ++ i16.

(** Lines 55-57; in the branch that builds it, [fp] is a non-empty [str]. *)
Definition agent_cmd (fp model : option string) : list string :=
  (["cursor-agent"; "-p"; Py.fmt fp] ++
   (if Py.truthy model then ["-m"; Py.fmt model] else []))%list.

Definition keystroke_cmd (fp : option string) : list string :=
  ["osascript"; "-e";
   if Py.truthy fp
   then chat_script (escape_applescript_string (Py.fmt fp))
   else open_tab_script].

Definition launch_cmd (w : World) (workspace : option string) : list string :=
  ["cursor"; workspace_path w workspace].

(** Lines 52-72: the [cursor-agent] attempt. *)
Definition agent_block (w : World) (fp model : option string)
  : M (option bool) :=
  if Py.truthy fp then
    try_except
      (result <- subprocess_run w (agent_cmd fp model) ;;
       if (returncode result =? 0)%Z
       then (print "✅ Opened chat with cursor-agent CLI" ;; ret (Some true))
       else ret None)
      (fun e =>
         match e with
         | FileNotFoundError _ => ret None
         | TimeoutExpired _ => ret None
         | OtherException _ => ret None
         end)
  else ret None.

(** Lines 75-151: the AppleScript attempt. *)
Definition applescript_block (w : World) (fp : option string)
  : M (option bool) :=
  if String.eqb (platform w) "darwin" then
    try_except
      (result <- subprocess_run w activate_cmd ;;
       if negb (returncode result =? 0)%Z
       then (print "⚠️  Could not activate Cursor. Is it installed?" ;;
             ret (Some false))
       else
         (sleep 500 ;;
          result <- subprocess_run w (keystroke_cmd fp) ;;
          if (returncode result =? 0)%Z
          then (print "✅ Opened new chat in Cursor (using AppleScript)" ;;
                (if Py.truthy fp
                 then print ("   Prompt: " ++ Py.fmt fp)
                 else ret tt) ;;
                ret (Some true))
          else if permission_error (stderr result)
          then (print_all permission_guidance ;;
                (if Py.truthy fp
                 then print ("   Then paste this prompt: " ++ Py.fmt fp)
                 else ret tt) ;;
                ret (Some true))
          else (print ("⚠️  AppleScript method failed: " ++ stderr result) ;;
                ret None)))
      (fun e =>
         print ("⚠️  AppleScript method failed: " ++ exn_str e) ;; ret None)
  else ret None.

(** Lines 154-167: the plain [cursor] launch. *)
Definition launch_block (w : World) (fp workspace : option string) : M bool :=
  try_except
    (subprocess_run w (launch_cmd w workspace) ;;
     print "✅ Opened Cursor" ;;
     (if negb (Py.truthy fp)
      then print "   💡 Press Cmd+T to open a new chat"
      else print ("   💡 Press Cmd+T and paste: " ++ Py.fmt fp)) ;;
     ret true)
    (fun e =>
       match e with
       | FileNotFoundError _ => print_all not_found_guidance ;; ret false
       | _ => raise e
       end).

Definition open_cursor_chat_hybrid
  (w : World) (prompt workspace model : option string) : M bool :=
  let fp := full_prompt prompt model in
  or_else (agent_block w fp model)
    (or_else (applescript_block w fp)
       (launch_block w fp workspace)).

Record Args : Type := mkArgs {
  agent : option string;
  model : option string;
  prompt : option string;
  workspace : option string
}.

(** The values [argparse] accepts for [--agent]. *)
Definition choices : list string := ["swe"; "qa"; "pm"; "docs"].

(** [args.agent == s] *)
Definition is_agent (a : option string) (s : string) : bool :=
  match a with
  | Some x => String.eqb x s
  | None => false
  end.

(** Lines 213-222: the prompt handed to the dispatcher. *)
Definition resolve_prompt (args : Args) : option string :=
  if negb (Py.truthy (prompt args)) && Py.truthy (agent args) then
    if is_agent (agent args) "swe" then Some "run swe agent"
    else if is_agent (agent args) "qa" then Some "Use @.cursor/rules/qa-agent.mdc"
    else if is_agent (agent args) "pm" then Some "Use @.cursor/rules/pm-agent.mdc"
    else if is_agent (agent args) "docs" then Some "run docs agent"
    else prompt args
  else prompt args.

(** [sys.exit(0 if success else 1)]; an exception that reaches the top
    level ends the interpreter with status 1. *)
Definition exit_code (r : Result bool) : Z :=
  match r with
  | Return true => 0
  | Return false => 1
  | Raise _ => 1
  end.

(** Lines 188-208: the four [add_argument] calls; [--agent] has
    [choices]. *)
Definition store (dest value : string) (args : Args) : Argparse.Stored Args :=
  if String.eqb dest "agent" then
    if existsb (String.eqb value) choices
    then Argparse.Kept
           (mkArgs (Some value) (model args) (prompt args) (workspace args))
    else Argparse.Refused
  else if String.eqb dest "model"
  then Argparse.Kept
         (mkArgs (agent args) (Some value) (prompt args) (workspace args))
  else if String.eqb dest "prompt"
  then Argparse.Kept
         (mkArgs (agent args) (model args) (Some value) (workspace args))
  else if String.eqb dest "workspace"
  then Argparse.Kept
         (mkArgs (agent args) (model args) (prompt args) (Some value))
  else Argparse.Undeclared.

Definition declared (dest : string) : bool :=
  String.eqb dest "agent" || String.eqb dest "model"
  || String.eqb dest "prompt" || String.eqb dest "workspace".

(** Line 210: [parser.parse_args()]; every attribute defaults to [None]. *)
Definition parse_args (tokens : list Argparse.Token) : Argparse.Parse Args :=
  Argparse.parse_args store declared (mkArgs None None None None) tokens.

(** Lines 170-225.  The events are those of the dispatcher; the help and
    usage texts [argparse] writes before it exits are not recorded. *)
Definition main (w : World) (tokens : list Argparse.Token)
  : list Event * Z :=
  match parse_args tokens with
  | Argparse.SystemExit code => ([], code)
  | Argparse.Parsed args =>
      let m := open_cursor_chat_hybrid w (resolve_prompt args)
                 (workspace args) (model args) in
      (trace m, exit_code (result m))
  end.

End RunNewAgent.

(** ** The fallback chain shared by the two dispatchers

    Both [open_cursor_chat_hybrid] functions are the same three blocks; they
    differ in the prompt they carry and in the command lines they build.
    [Chain] is that common shape, with the prompt and the three command
    lines as parameters. *)

Module Chain.
Import Proc Common.
Local Open Scope py_scope.

Section Blocks.

Variable w : World.
Variable fp : option string.
Variables acmd kcmd lcmd : list string.

Definition agent_block : M (option bool) :=
  if Py.truthy fp then
    try_except
      (result <- subprocess_run w acmd ;;
       if (returncode result =? 0)%Z
       then (print "✅ Opened chat with cursor-agent CLI" ;; ret (Some true))
       else ret None)
      (fun e =>
         match e with
         | FileNotFoundError _ => ret None
         | TimeoutExpired _ => ret None
         | OtherException _ => ret None
         end)
  else ret None.

Definition applescript_block : M (option bool) :=
  if String.eqb (platform w) "darwin" then
    try_except
      (result <- subprocess_run w activate_cmd ;;
       if negb (returncode result =? 0)%Z
       then (print "⚠️  Could not activate Cursor. Is it installed?" ;;
             ret (Some false))
       else
         (sleep 500 ;;
          result <- subprocess_run w kcmd ;;
          if (returncode result =? 0)%Z
          then (print "✅ Opened new chat in Cursor (using AppleScript)" ;;
                (if Py.truthy fp
                 then print ("   Prompt: " ++ Py.fmt fp)
                 else ret tt) ;;
                ret (Some true))
          else if permission_error (stderr result)
          then (print_all permission_guidance ;;
                (if Py.truthy fp
                 then print ("   Then paste this prompt: " ++ Py.fmt fp)
                 else ret tt) ;;
                ret (Some true))
          else (print ("⚠️  AppleScript method failed: " ++ stderr result) ;;
                ret None)))
      (fun e =>
         print ("⚠️  AppleScript method failed: " ++ exn_str e) ;; ret None)
  else ret None.

Definition launch_block : M bool :=
  try_except
    (subprocess_run w lcmd ;;
     print "✅ Opened Cursor" ;;
     (if negb (Py.truthy fp)
      then print "   💡 Press Cmd+T to open a new chat"
      else print ("   💡 Press Cmd+T and paste: " ++ Py.fmt fp)) ;;
     ret true)
    (fun e =>
       match e with
       | FileNotFoundError _ => print_all not_found_guidance ;; ret false
       | _ => raise e
       end).

Definition dispatch : M bool :=
  or_else agent_block (or_else applescript_block launch_block).

(** *** How the host decides the path taken *)

(** The external tool was run and exited with status zero. *)
Definition agent_ok : bool :=
  Py.truthy fp &&
  match run_result w acmd with
  | Completed r => (returncode r =? 0)%Z
  | Raises _ => false
  end.

(** The events of the first block when the tool does not succeed. *)
Definition agent_trace : list Event :=
  if Py.truthy fp then [Spawn acmd] else [].

(** What happens in the AppleScript block. *)
Inductive Keystroke : Type :=
| NotMac
| ActivationRaised (e : Exn)
| ActivationFailed
| KeystrokeRaised (e : Exn)
| KeystrokeOk
| PermissionDenied (err : string)
| KeystrokeFailed (err : string).

Definition keystroke : Keystroke :=
  if String.eqb (platform w) "darwin" then
    match run_result w activate_cmd with
    | Raises e => ActivationRaised e
    | Completed a =>
        if (returncode a =? 0)%Z then
          match run_result w kcmd with
          | Raises e => KeystrokeRaised e
          | Completed k =>
              if (returncode k =? 0)%Z then KeystrokeOk
              else if permission_error (stderr k)
                   then PermissionDenied (stderr k)
                   else KeystrokeFailed (stderr k)
          end
        else ActivationFailed
    end
  else NotMac.

(** The value with which the AppleScript block returns, if it returns. *)
Definition keystroke_verdict (k : Keystroke) : option bool :=
  match k with
  | ActivationFailed => Some false
  | KeystrokeOk => Some true
  | PermissionDenied _ => Some true
  | NotMac => None
  | ActivationRaised _ => None
  | KeystrokeRaised _ => None
  | KeystrokeFailed _ => None
  end.

(** How the last block ends. *)
Definition launch_result : Result bool :=
  match run_result w lcmd with
  | Completed _ => Return true
  | Raises (FileNotFoundError _) => Return false
  | Raises e => Raise e
  end.

(** The launcher command is absent on the host. *)
Definition launcher_absent : Prop :=
  exists msg, run_result w lcmd = Raises (FileNotFoundError msg).

(** The result of the whole chain, read off the host. *)
Definition verdict : Result bool :=
  if agent_ok then Return true
  else match keystroke_verdict keystroke with
       | Some b => Return b
       | None => launch_result
       end.

End Blocks.

End Chain.

(** ** Either script *)

Inductive Script : Type := open_cursor_chat_py | run_new_agent_py.

(** The prompt the dispatcher works with; [open_cursor_chat.py] has no
    model argument. *)
Definition effective_prompt (s : Script) (prompt model : option string)
  : option string :=
  match s with
  | open_cursor_chat_py => prompt
  | run_new_agent_py => RunNewAgent.full_prompt prompt model
  end.

Definition agent_cmd (s : Script) (prompt model : option string) : list string :=
  match s with
  | open_cursor_chat_py => OpenCursorChat.agent_cmd prompt
  | run_new_agent_py =>
      RunNewAgent.agent_cmd (RunNewAgent.full_prompt prompt model) model
  end.

Definition keystroke_cmd (s : Script) (prompt model : option string)
  : list string :=
  match s with
  | open_cursor_chat_py => OpenCursorChat.keystroke_cmd prompt
  | run_new_agent_py =>
      RunNewAgent.keystroke_cmd (RunNewAgent.full_prompt prompt model)
  end.

Definition launch_cmd (s : Script) (w : Proc.World) (workspace : option string)
  : list string :=
  match s with
  | open_cursor_chat_py => OpenCursorChat.launch_cmd w workspace
  | run_new_agent_py => RunNewAgent.launch_cmd w workspace
  end.

Definition dispatcher (s : Script) (w : Proc.World)
  (prompt workspace model : option string) : Proc.M bool :=
  match s with
  | open_cursor_chat_py =>
      OpenCursorChat.open_cursor_chat_hybrid w prompt workspace
  | run_new_agent_py =>
      RunNewAgent.open_cursor_chat_hybrid w prompt workspace model
  end.

(** What [main] hands to its dispatcher; [open_cursor_chat.py] has no
    model to hand over. *)
Record Call : Type := mkCall {
  call_prompt : option string;
  call_workspace : option string;
  call_model : option string
}.

(** The call [main] makes when [argparse] accepts the command line. *)
Definition main_call (s : Script) (tokens : list Argparse.Token)
  : Argparse.Parse Call :=
  match s with
  | open_cursor_chat_py =>
      match OpenCursorChat.parse_args tokens with
      | Argparse.Parsed args =>
          Argparse.Parsed
            (mkCall (OpenCursorChat.prompt args)
               (OpenCursorChat.workspace args) None)
      | Argparse.SystemExit code => Argparse.SystemExit code
      end
  | run_new_agent_py =>
      match RunNewAgent.parse_args tokens with
      | Argparse.Parsed args =>
          Argparse.Parsed
            (mkCall (RunNewAgent.resolve_prompt args)
               (RunNewAgent.workspace args) (RunNewAgent.model args))
      | Argparse.SystemExit code => Argparse.SystemExit code
      end
  end.

(** [main] of either script. *)
Definition run_main (s : Script) (w : Proc.World)
  (tokens : list Argparse.Token) : list Proc.Event * Z :=
  match s with
  | open_cursor_chat_py => OpenCursorChat.main w tokens
  | run_new_agent_py => RunNewAgent.main w tokens
  end.

(** ** Specification-level notions *)

(** The per-character view of the escaping: a backslash becomes two, a
    double quote gets a backslash in front, anything else stays. *)
Definition escape_char (c : ascii) : string :=
  if Ascii.eqb c Py.backslash then Py.BS ++ Py.BS
  else if Ascii.eqb c Py.dquote then Py.BS ++ Py.DQ
  else Py.chr c.

(** Replacing one character [c] by [new], character by character. *)
Definition replace_char (c : ascii) (new : string) (a : ascii) : string :=
  if Ascii.eqb c a then new else Py.chr a.

(** *** Prompt resolution *)

Definition generic_prompt (role : string) : string := "run " ++ role ++ " agent".

Definition rule_file_prompt (role : string) : string :=
  "Use @.cursor/rules/" ++ role ++ "-agent.mdc".

(** The lookup table from role to instruction. *)
Definition canned_prompts : list (string * string) :=
  [ ("swe", generic_prompt "swe");
    ("qa", rule_file_prompt "qa");
    ("pm", rule_file_prompt "pm");
    ("docs", generic_prompt "docs") ].

Fixpoint lookup (k : string) (table : list (string * string)) : option string :=
  match table with
  | [] => None
  | (k', v) :: rest => if String.eqb k k' then Some v else lookup k rest
  end.

(** The instruction names a file under [.cursor/rules/]. *)
Definition references_rule_file (instruction : string) : bool :=
  Py.contains "@.cursor/rules/" instruction.

(** A command line with a role and nothing else. *)
Definition role_only (role : string) : RunNewAgent.Args :=
  RunNewAgent.mkArgs (Some role) None None None.

(** "Exactly one role yields a generic instruction string and the other
    three yield strings referencing a rule file." *)
Definition one_generic_three_rule_files : Prop :=
  exists g, In g RunNewAgent.choices /\
    forall role, In role RunNewAgent.choices ->
      exists instruction,
        RunNewAgent.resolve_prompt (role_only role) = Some instruction /\
        (references_rule_file instruction = true <-> role <> g).

(** "The explicit prompt, the empty string included, takes precedence
    over the role." *)
Definition explicit_prompt_always_wins : Prop :=
  forall (args : RunNewAgent.Args) (p : string),
    RunNewAgent.prompt args = Some p ->
    RunNewAgent.resolve_prompt args = Some p.

(** "A non-empty prompt and any model name give the prompt followed by the
    model annotation." *)
Definition model_suffix_for_every_model : Prop :=
  forall p m : string, p <> "" ->
    RunNewAgent.full_prompt (Some p) (Some m)
    = Some (p ++ " (model: " ++ m ++ ")").

(** *** Dispatch *)

(** "The launcher being absent is the sole condition under which the
    dispatcher returns failure." *)
Definition launcher_absence_sole_failure : Prop :=
  forall (s : Script) (w : Proc.World) (prompt workspace model : option string),
    Proc.result (dispatcher s w prompt workspace model) = Proc.Return false ->
    Chain.launcher_absent w (launch_cmd s w workspace).



(** ** Sample hosts *)

Module Sample.
Import Proc.

(** A host that answers by program: [cursor-agent], the activation script,
    any other [osascript] call, and [cursor]. *)
Definition answers (agent activation keys launcher : RunOutcome)
  (argv : list string) : RunOutcome :=
  match argv with
  | prog :: rest =>
      if String.eqb prog "cursor-agent" then agent
      else if String.eqb prog "osascript" then
        match rest with
        | [_; script] =>
            if String.eqb script Common.activate_script
            then activation else keys
        | _ => keys
        end
      else if String.eqb prog "cursor" then launcher
      else Raises (FileNotFoundError prog)
  | [] => Raises (OtherException "empty command line")
  end.

Definition exited (code : Z) (err : string) : RunOutcome :=
  Completed (mkCompleted code err).

Definition missing : RunOutcome := Raises (FileNotFoundError "No such file").

(** macOS, no [cursor-agent], activation fails, [cursor] is installed. *)
Definition mac_without_app : World :=
  mkWorld "darwin" "/Users/dev/project"
    (answers missing (exited 1 "Application not found") (exited 0 "")
       (exited 0 "")).

(** macOS, no [cursor-agent], keystrokes refused by the system. *)
Definition mac_without_permission : World :=
  mkWorld "darwin" "/Users/dev/project"
    (answers missing (exited 0 "")
       (exited 1 "osascript is not allowed to send keystrokes. (1002)")
       (exited 0 "")).

(** Linux with nothing installed. *)
Definition bare_linux : World :=
  mkWorld "linux" "/home/dev/project" (answers missing missing missing missing).


(** Linux, no [cursor-agent], and a [cursor] that starts and exits with 3. *)
Definition linux_launcher_exits_3 : World :=
  mkWorld "linux" "/home/dev/project"
    (answers missing missing missing (exited 3 "cannot open display")).

(** Any host where [cursor-agent] works. *)
Definition with_agent : World :=
  mkWorld "linux" "/home/dev/project"
    (answers (exited 0 "") missing missing missing).

End Sample.

(** ** Further notions used to state properties of the code *)

(** Reading an escaped text back: a backslash makes the next character
    literal. *)
Fixpoint unescape_from (escaped : bool) (s : string) : string :=
  match s with
  | EmptyString => EmptyString
  | String c s' =>
      if escaped then String c (unescape_from false s')
      else if Ascii.eqb c Py.backslash then unescape_from true s'
      else String c (unescape_from false s')
  end.

Definition unescape (s : string) : string := unescape_from false s.

(** The number of backslashes and double quotes in a text. *)
Fixpoint count_special (s : string) : nat :=
  match s with
  | EmptyString => 0
  | String c s' =>
      (if Ascii.eqb c Py.backslash || Ascii.eqb c Py.dquote then 1 else 0)
      + count_special s'
  end.

(** The programs a run starts, in order. *)
Fixpoint programs (t : list Proc.Event) : list string :=
  match t with
  | [] => []
  | Proc.Spawn (prog :: _) :: t' => prog :: programs t'
  | _ :: t' => programs t'
  end.

(** [a] is [b] with some elements left out. *)
Fixpoint subseq (a b : list string) : bool :=
  match a, b with
  | [], _ => true
  | _ :: _, [] => false
  | x :: a', y :: b' =>
      if String.eqb x y then subseq a' b' else subseq a b'
  end.

(** The mechanisms in the order the docstrings give them; the AppleScript
    mechanism calls [osascript] twice. *)
Definition priority_order : list string :=
  ["cursor-agent"; "osascript"; "osascript"; "cursor"].

(** The line with which a failed AppleScript attempt is reported before
    the chain goes on. *)
Definition failure_report (k : Chain.Keystroke) : option string :=
  match k with
  | Chain.ActivationRaised e =>
      Some ("⚠️  AppleScript method failed: " ++ Proc.exn_str e)
  | Chain.KeystrokeRaised e =>
      Some ("⚠️  AppleScript method failed: " ++ Proc.exn_str e)
  | Chain.KeystrokeFailed err =>
      Some ("⚠️  AppleScript method failed: " ++ err)
  | _ => None
  end.

(** ** Facts about the string primitives *)

Section StringFacts.

Lemma append_nil_r (s : string) : s ++ "" = s.
Proof. induction s as [|a s IH]; simpl; [reflexivity | now rewrite IH]. Qed.

Lemma append_assoc (a b c : string) : (a ++ b) ++ c = a ++ (b ++ c).
Proof. induction a as [|x a IH]; simpl; [reflexivity | now rewrite IH]. Qed.

Lemma subst_chars_app (f : ascii -> string) (a b : string) :
  Py.subst_chars f (a ++ b) = Py.subst_chars f a ++ Py.subst_chars f b.
Proof.
  induction a as [|x a IH]; simpl; [reflexivity|].
  now rewrite IH, append_assoc.
Qed.

(** Replacing a one-character pattern is a character-wise substitution. *)
Lemma replace_single (c : ascii) (new s : string) :
  Py.replace (Py.chr c) new s = Py.subst_chars (replace_char c new) s.
Proof.
  unfold Py.replace, Py.chr.
  induction s as [|a s IH]; [reflexivity|].
  cbn [Py.replace_from Py.startswith Py.subst_chars String.length Nat.sub].
  unfold replace_char at 1.
  rewrite Bool.andb_true_r.
  destruct (Ascii.eqb c a); rewrite IH; reflexivity.
Qed.

Lemma subst_chars_id (f : ascii -> string) (s : string) :
  (forall a, Py.occurs a s -> f a = Py.chr a) ->
  Py.subst_chars f s = s.
Proof.
  induction s as [|a s IH]; intros H; [reflexivity|].
  simpl. rewrite (H a) by (left; reflexivity).
  rewrite IH by (intros b Hb; apply H; right; exact Hb).
  reflexivity.
Qed.

Lemma escape_by_char (s : string) :
  Py.replace Py.DQ (Py.BS ++ Py.DQ) (Py.replace Py.BS (Py.BS ++ Py.BS) s)
  = Py.subst_chars escape_char s.
Proof.
  unfold Py.DQ at 1, Py.BS at 2.
  rewrite !replace_single.
  induction s as [|a s IH]; [reflexivity|].
  cbn [Py.subst_chars]. rewrite subst_chars_app, IH. f_equal.
  unfold escape_char, replace_char.
  rewrite (Ascii.eqb_sym a Py.backslash), (Ascii.eqb_sym a Py.dquote).
  destruct (Ascii.eqb Py.backslash a) eqn:Eb.
  - reflexivity.
  - unfold Py.chr. cbn [Py.subst_chars].
    destruct (Ascii.eqb Py.dquote a); reflexivity.
Qed.

Lemma escape_char_plain (a : ascii) :
  a <> Py.backslash -> a <> Py.dquote -> escape_char a = Py.chr a.
Proof.
  intros Hb Hq. unfold escape_char.
  destruct (Ascii.eqb_spec a Py.backslash); [contradiction|].
  destruct (Ascii.eqb_spec a Py.dquote); [contradiction|].
  reflexivity.
Qed.

End StringFacts.

(** ** The escaping function *)

(** C1: in both scripts [escape_applescript_string] doubles every backslash
    of its input, puts a backslash before every double quote of its input
    and leaves every other character alone; it does so by replacing the
    backslashes first and the double quotes second. *)
Theorem escape_applescript_string_spec (text : string) :
  (OpenCursorChat.escape_applescript_string text
     = Py.subst_chars escape_char text
   /\ OpenCursorChat.escape_applescript_string text
     = Py.replace Py.DQ (Py.BS ++ Py.DQ)
         (Py.replace Py.BS (Py.BS ++ Py.BS) text))
  /\
  (RunNewAgent.escape_applescript_string text
     = Py.subst_chars escape_char text
   /\ RunNewAgent.escape_applescript_string text
     = Py.replace Py.DQ (Py.BS ++ Py.DQ)
         (Py.replace Py.BS (Py.BS ++ Py.BS) text)).
Proof.
  unfold OpenCursorChat.escape_applescript_string,
         RunNewAgent.escape_applescript_string.
  repeat split; try reflexivity; apply escape_by_char.
Qed.

(** The order of the two replacements is observable: quotes first would
    double the backslash that the quote replacement has just inserted. *)
Example escape_order_matters :
  Py.replace Py.BS (Py.BS ++ Py.BS) (Py.replace Py.DQ (Py.BS ++ Py.DQ) Py.DQ)
  <> RunNewAgent.escape_applescript_string Py.DQ.
Proof. discriminate. Qed.

Example replace_overlapping : Py.replace "aa" "b" "aaa" = "ba".
Proof. reflexivity. Qed.

Example replace_empty_pattern : Py.replace "" "-" "abc" = "-a-b-c-".
Proof. reflexivity. Qed.

Example contains_sample :
  Py.contains "1002" "execution error: (-1002)" = true
  /\ Py.contains "1002" "execution error" = false.
Proof. split; reflexivity. Qed.

Example escape_sample :
  RunNewAgent.escape_applescript_string
    ("a" ++ Py.BS ++ "b" ++ Py.DQ ++ "c")
  = "a" ++ Py.BS ++ Py.BS ++ "b" ++ Py.BS ++ Py.DQ ++ "c".
Proof. reflexivity. Qed.

(** C10: on a string with no backslash and no double quote the escaping
    function of either script returns its input, and the escaping functions
    of the two scripts agree on every input. *)
Theorem escape_identity_and_agreement (text : string) :
  (~ Py.occurs Py.backslash text ->
   ~ Py.occurs Py.dquote text ->
   RunNewAgent.escape_applescript_string text = text
   /\ OpenCursorChat.escape_applescript_string text = text)
  /\ OpenCursorChat.escape_applescript_string text
     = RunNewAgent.escape_applescript_string text.
Proof.
  split; [|reflexivity].
  intros Hb Hq.
  assert (E : Py.subst_chars escape_char text = text).
  { apply subst_chars_id. intros a Ha. apply escape_char_plain.
    - intros ->. exact (Hb Ha).
    - intros ->. exact (Hq Ha). }
  unfold RunNewAgent.escape_applescript_string,
         OpenCursorChat.escape_applescript_string.
  rewrite escape_by_char. split; exact E.
Qed.

Lemma escape_identity_and_agreement_witness :
  RunNewAgent.escape_applescript_string "run swe agent" = "run swe agent"
  /\ OpenCursorChat.escape_applescript_string "run swe agent" = "run swe agent".
Proof.
  apply (proj1 (escape_identity_and_agreement "run swe agent")).
  - cbn. intuition discriminate.
  - cbn. intuition discriminate.
Defined.

(** ** The monad and the fallback chain *)

Ltac py_run :=
  cbv [Proc.or_else Proc.bind Proc.ret Proc.try_except Proc.raise Proc.print
       Proc.sleep Proc.subprocess_run Proc.trace Proc.result
       Common.print_all Common.permission_guidance Common.not_found_guidance
       fst snd app map negb].

Section ChainFacts.
Import Proc Common.

Variable w : World.
Variable fp : option string.
Variables acmd kcmd lcmd : list string.

Lemma or_else_returned (t : list Event) (b : bool) (k : M bool) :
  or_else (t, Return (Some b)) k = (t, Return b).
Proof. cbv [or_else bind ret]. now rewrite app_nil_r. Qed.

Lemma or_else_fell_through (t : list Event) (k : M bool) :
  or_else (t, Return None) k = ((t ++ trace k)%list, result k).
Proof. cbv [or_else bind trace result]. now destruct k. Qed.

Lemma agent_block_ok :
  Chain.agent_ok w fp acmd = true ->
  Chain.agent_block w fp acmd
  = ([Spawn acmd; Print "✅ Opened chat with cursor-agent CLI"],
     Return (Some true)).
Proof.
  unfold Chain.agent_ok, Chain.agent_block.
  destruct (Py.truthy fp); [|discriminate]. cbn [andb].
  py_run. destruct (run_result w acmd) as [r|e]; [|discriminate].
  intros ->. reflexivity.
Qed.

Lemma agent_block_not_ok :
  Chain.agent_ok w fp acmd = false ->
  Chain.agent_block w fp acmd = (Chain.agent_trace fp acmd, Return None).
Proof.
  unfold Chain.agent_ok, Chain.agent_block, Chain.agent_trace.
  destruct (Py.truthy fp); [|reflexivity]. cbn [andb].
  py_run. destruct (run_result w acmd) as [r|e].
  - intros ->. reflexivity.
  - intros _. destruct e; reflexivity.
Qed.

(** The AppleScript block returns what the classification says. *)
Lemma applescript_block_result :
  result (Chain.applescript_block w fp kcmd)
  = Return (Chain.keystroke_verdict (Chain.keystroke w kcmd)).
Proof.
  unfold Chain.applescript_block, Chain.keystroke.
  destruct (String.eqb (platform w) "darwin"); [|reflexivity].
  py_run.
  destruct (run_result w activate_cmd) as [a|e]; [|reflexivity].
  destruct (returncode a =? 0)%Z; [|reflexivity].
  cbv [negb].
  destruct (run_result w kcmd) as [k|e]; [|reflexivity].
  destruct (returncode k =? 0)%Z.
  - destruct (Py.truthy fp); reflexivity.
  - destruct (permission_error (stderr k)); [|reflexivity].
    destruct (Py.truthy fp); reflexivity.
Qed.

Lemma launch_block_result :
  result (Chain.launch_block w fp lcmd) = Chain.launch_result w lcmd.
Proof.
  unfold Chain.launch_block, Chain.launch_result. py_run.
  destruct (run_result w lcmd) as [r|e].
  - destruct (Py.truthy fp); reflexivity.
  - destruct e; reflexivity.
Qed.

(** The chain returns what the classification says. *)
Lemma dispatch_result :
  result (Chain.dispatch w fp acmd kcmd lcmd)
  = Chain.verdict w fp acmd kcmd lcmd.
Proof.
  unfold Chain.dispatch, Chain.verdict.
  destruct (Chain.agent_ok w fp acmd) eqn:Ea.
  - rewrite (agent_block_ok Ea), or_else_returned. reflexivity.
  - rewrite (agent_block_not_ok Ea), or_else_fell_through.
    cbn [result snd].
    pose proof applescript_block_result as Hk.
    destruct (Chain.applescript_block w fp kcmd) as [t r].
    cbn [result snd] in Hk. subst r.
    destruct (Chain.keystroke_verdict (Chain.keystroke w kcmd)) as [b|].
    + rewrite or_else_returned. reflexivity.
    + rewrite or_else_fell_through. cbn [result snd].
      apply launch_block_result.
Qed.

End ChainFacts.

(** Each dispatcher is the chain at its own prompt and command lines. *)
Lemma dispatcher_is_chain (s : Script) (w : Proc.World)
  (prompt workspace model : option string) :
  dispatcher s w prompt workspace model
  = Chain.dispatch w (effective_prompt s prompt model)
      (agent_cmd s prompt model) (keystroke_cmd s prompt model)
      (launch_cmd s w workspace).
Proof. destruct s; reflexivity. Qed.

(** ** What the blocks spawn *)

(** An event is in an explicit trace. *)
Ltac in_trace :=
  py_run; cbv [Proc.spawned Proc.printed]; cbn [In]; auto 12.

(** Every process spawned in an explicit trace is one of those listed in
    the goal. *)
Ltac spawn_cases :=
  py_run; cbv [Proc.spawned]; cbn [In];
  let H := fresh "H" in
  intros H;
  repeat (destruct H as [H|H]);
  try discriminate H; try contradiction;
  try (injection H as <-); auto.

Section TraceFacts.
Import Proc Common.

Variable w : World.
Variable fp : option string.
Variables acmd kcmd lcmd : list string.

Lemma agent_trace_spawns (argv : list string) :
  spawned argv (Chain.agent_trace fp acmd) -> argv = acmd.
Proof.
  unfold Chain.agent_trace. destruct (Py.truthy fp); spawn_cases.
Qed.

(** The AppleScript block runs [osascript] and nothing else. *)
Lemma applescript_block_spawns (argv : list string) :
  spawned argv (trace (Chain.applescript_block w fp kcmd)) ->
  argv = activate_cmd \/ argv = kcmd.
Proof.
  unfold Chain.applescript_block.
  destruct (String.eqb (platform w) "darwin"); [|spawn_cases].
  py_run.
  destruct (run_result w activate_cmd) as [a|e]; [|spawn_cases].
  destruct (returncode a =? 0)%Z; [|spawn_cases].
  cbv [negb].
  destruct (run_result w kcmd) as [k|e]; [|spawn_cases].
  destruct (returncode k =? 0)%Z.
  - destruct (Py.truthy fp); spawn_cases.
  - destruct (permission_error (stderr k)); [|spawn_cases].
    destruct (Py.truthy fp); spawn_cases.
Qed.

Lemma applescript_block_activation_failed :
  Chain.keystroke w kcmd = Chain.ActivationFailed ->
  Chain.applescript_block w fp kcmd
  = ([Spawn activate_cmd;
      Print "⚠️  Could not activate Cursor. Is it installed?"],
     Return (Some false)).
Proof.
  unfold Chain.applescript_block, Chain.keystroke.
  destruct (String.eqb (platform w) "darwin"); [|discriminate].
  py_run.
  destruct (run_result w activate_cmd) as [a|e]; [|discriminate].
  destruct (returncode a =? 0)%Z; [|reflexivity].
  destruct (run_result w kcmd) as [k|e]; [|discriminate].
  destruct (returncode k =? 0)%Z; [discriminate|].
  destruct (permission_error (stderr k)); discriminate.
Qed.

Lemma applescript_block_permission_denied (err : string) :
  Chain.keystroke w kcmd = Chain.PermissionDenied err ->
  Chain.applescript_block w fp kcmd
  = ((Spawn activate_cmd :: Sleep 500 :: Spawn kcmd ::
      map Print permission_guidance ++
      (if Py.truthy fp
       then [Print ("   Then paste this prompt: " ++ Py.fmt fp)]
       else []))%list,
     Return (Some true)).
Proof.
  unfold Chain.applescript_block, Chain.keystroke.
  destruct (String.eqb (platform w) "darwin"); [|discriminate].
  py_run.
  destruct (run_result w activate_cmd) as [a|e]; [|discriminate].
  destruct (returncode a =? 0)%Z; [|discriminate].
  cbv [negb].
  destruct (run_result w kcmd) as [k|e]; [|discriminate].
  destruct (returncode k =? 0)%Z; [discriminate|].
  destruct (permission_error (stderr k)); [|discriminate].
  intros _. destruct (Py.truthy fp); reflexivity.
Qed.

(** On macOS the AppleScript block starts by activating the application. *)
Lemma applescript_block_activates :
  platform w = "darwin" ->
  spawned activate_cmd (trace (Chain.applescript_block w fp kcmd)).
Proof.
  intros Hp. unfold Chain.applescript_block. rewrite Hp.
  cbn [String.eqb Ascii.eqb Bool.eqb]. py_run.
  destruct (run_result w activate_cmd) as [a|e]; [|in_trace].
  destruct (returncode a =? 0)%Z; [|in_trace].
  destruct (run_result w kcmd) as [k|e]; [|in_trace].
  destruct (returncode k =? 0)%Z.
  - destruct (Py.truthy fp); in_trace.
  - destruct (permission_error (stderr k)); [|in_trace].
    destruct (Py.truthy fp); in_trace.
Qed.

(** The last block runs the launcher, first thing, and nothing else. *)
Lemma launch_block_spawns (argv : list string) :
  spawned argv (trace (Chain.launch_block w fp lcmd)) -> argv = lcmd.
Proof.
  unfold Chain.launch_block. py_run.
  destruct (run_result w lcmd) as [r|e].
  - destruct (Py.truthy fp); spawn_cases.
  - destruct e; spawn_cases.
Qed.

Lemma launch_block_launches :
  spawned lcmd (trace (Chain.launch_block w fp lcmd)).
Proof.
  unfold Chain.launch_block. py_run.
  destruct (run_result w lcmd) as [r|e].
  - destruct (Py.truthy fp); in_trace.
  - destruct e; in_trace.
Qed.

(** When the tool does not succeed the chain goes on with the other two
    blocks. *)
Lemma dispatch_after_agent :
  Chain.agent_ok w fp acmd = false ->
  Chain.dispatch w fp acmd kcmd lcmd
  = ((Chain.agent_trace fp acmd ++
      trace (or_else (Chain.applescript_block w fp kcmd)
               (Chain.launch_block w fp lcmd)))%list,
     result (or_else (Chain.applescript_block w fp kcmd)
               (Chain.launch_block w fp lcmd))).
Proof.
  intros Ea. unfold Chain.dispatch.
  rewrite (agent_block_not_ok _ _ _ Ea), or_else_fell_through. reflexivity.
Qed.

(** When the AppleScript block falls through, the launch follows it. *)
Lemma fallback_after_applescript :
  Chain.keystroke_verdict (Chain.keystroke w kcmd) = None ->
  or_else (Chain.applescript_block w fp kcmd) (Chain.launch_block w fp lcmd)
  = ((trace (Chain.applescript_block w fp kcmd) ++
      trace (Chain.launch_block w fp lcmd))%list,
     result (Chain.launch_block w fp lcmd)).
Proof.
  intros Hk. pose proof (applescript_block_result w fp kcmd) as Hr.
  rewrite Hk in Hr.
  destruct (Chain.applescript_block w fp kcmd) as [t r].
  cbn [result snd] in Hr. subst r.
  rewrite or_else_fell_through. reflexivity.
Qed.

(** The two fallback blocks never run the external tool. *)
Lemma fallback_spawns (argv : list string) :
  spawned argv
    (trace (or_else (Chain.applescript_block w fp kcmd)
              (Chain.launch_block w fp lcmd))) ->
  argv = activate_cmd \/ argv = kcmd \/ argv = lcmd.
Proof.
  pose proof (applescript_block_spawns argv) as Ha.
  pose proof (applescript_block_result w fp kcmd) as Hr.
  destruct (Chain.applescript_block w fp kcmd) as [t r].
  cbn [result snd trace fst] in Hr, Ha. subst r.
  destruct (Chain.keystroke_verdict (Chain.keystroke w kcmd)) as [b|].
  - rewrite or_else_returned. cbn [trace fst]. tauto.
  - rewrite or_else_fell_through. cbn [trace fst].
    unfold spawned in *. rewrite in_app_iff.
    intros [H|H]; [tauto|].
    right; right. exact (launch_block_spawns argv H).
Qed.

End TraceFacts.

(** ** Prompt resolution *)

Lemma truthy_nonempty (p : string) : p <> "" -> Py.truthy (Some p) = true.
Proof. destruct p; [congruence | reflexivity]. Qed.

(** C2, as stated, fails: both [swe] and [docs] resolve to an instruction
    that names no rule file, so no single role is the generic one. *)
Lemma one_generic_three_rule_files_fails : ~ one_generic_three_rule_files.
Proof.
  intros (g & _ & H).
  destruct (H "swe") as (i1 & E1 & [_ B1]); [cbn; auto|].
  destruct (H "docs") as (i2 & E2 & [_ B2]); [cbn; auto|].
  vm_compute in E1, E2.
  injection E1 as <-. injection E2 as <-.
  destruct (String.eqb_spec "swe" g) as [<-|Hg].
  - assert (F : "docs" <> "swe") by discriminate.
    specialize (B2 F). vm_compute in B2. discriminate.
  - specialize (B1 Hg). vm_compute in B1. discriminate.
Qed.

(** C2, amended: with a role from the recognised set and no explicit prompt
    (absent or empty), the resolved prompt is the role's entry in the fixed
    table; [swe] and [docs] map to the generic "run <role> agent", which
    names no rule file, and [qa] and [pm] map to
    "Use @.cursor/rules/<role>-agent.mdc". *)
Theorem agent_role_lookup (args : RunNewAgent.Args) (role : string) :
  RunNewAgent.agent args = Some role ->
  In role RunNewAgent.choices ->
  Py.truthy (RunNewAgent.prompt args) = false ->
  RunNewAgent.resolve_prompt args = lookup role canned_prompts
  /\ (role = "swe" \/ role = "docs" ->
      lookup role canned_prompts = Some (generic_prompt role)
      /\ references_rule_file (generic_prompt role) = false)
  /\ (role = "qa" \/ role = "pm" ->
      lookup role canned_prompts = Some (rule_file_prompt role)
      /\ references_rule_file (rule_file_prompt role) = true).
Proof.
  intros Ha Hin Hp.
  unfold RunNewAgent.resolve_prompt. rewrite Hp, Ha.
  cbn in Hin.
  destruct Hin as [<-|[<-|[<-|[<-|[]]]]];
    (split; [reflexivity|]);
    split; intros [E|E]; try discriminate E; split; reflexivity.
Qed.

Lemma agent_role_lookup_witness :
  RunNewAgent.resolve_prompt (role_only "qa")
  = Some "Use @.cursor/rules/qa-agent.mdc".
Proof.
  refine (proj1 (agent_role_lookup (role_only "qa") "qa" _ _ _)).
  - reflexivity.
  - cbn; auto.
  - reflexivity.
Defined.

(** C3, as stated, fails at the empty explicit prompt: [-p '' -a swe]
    resolves to the role's instruction. *)
Lemma explicit_prompt_always_wins_fails : ~ explicit_prompt_always_wins.
Proof.
  intros H.
  specialize (H (RunNewAgent.mkArgs (Some "swe") None (Some "") None) ""
                eq_refl).
  vm_compute in H. discriminate.
Qed.

(** C3, amended: a non-empty explicit prompt is the resolved prompt,
    whatever the role. *)
Theorem explicit_prompt_precedence (args : RunNewAgent.Args) (p : string) :
  RunNewAgent.prompt args = Some p ->
  p <> "" ->
  RunNewAgent.resolve_prompt args = Some p.
Proof.
  intros Hp Hne. unfold RunNewAgent.resolve_prompt.
  rewrite Hp, (truthy_nonempty _ Hne). reflexivity.
Qed.

Lemma explicit_prompt_precedence_witness :
  RunNewAgent.resolve_prompt
    (RunNewAgent.mkArgs (Some "qa") None (Some "Refactor this code") None)
  = Some "Refactor this code".
Proof.
  apply (explicit_prompt_precedence
           (RunNewAgent.mkArgs (Some "qa") None (Some "Refactor this code") None)
           "Refactor this code").
  - reflexivity.
  - discriminate.
Defined.

(** C4, as stated, fails at the empty model name: [-p hi -m ''] leaves the
    prompt as it is. *)
Lemma model_suffix_for_every_model_fails : ~ model_suffix_for_every_model.
Proof.
  intros H. specialize (H "hi" ""). vm_compute in H.
  assert (F : "hi" <> "") by discriminate.
  specialize (H F). discriminate.
Qed.

(** C4, amended: for a non-empty model name [m], a non-empty prompt [p]
    becomes [p] followed by " (model: m)", and an absent or empty prompt
    becomes "(model: m)". *)
Theorem model_annotation (p m : string) (absent : option string) :
  m <> "" ->
  (p <> "" ->
   RunNewAgent.full_prompt (Some p) (Some m)
   = Some (p ++ " (model: " ++ m ++ ")"))
  /\ (Py.truthy absent = false ->
      RunNewAgent.full_prompt absent (Some m)
      = Some ("(model: " ++ m ++ ")")).
Proof.
  intros Hm. unfold RunNewAgent.full_prompt.
  rewrite (truthy_nonempty _ Hm). split.
  - intros Hp. rewrite (truthy_nonempty _ Hp). reflexivity.
  - intros ->. reflexivity.
Qed.

Lemma model_annotation_witness :
  RunNewAgent.full_prompt (Some "run swe agent") (Some "gpt-4")
  = Some "run swe agent (model: gpt-4)"
  /\ RunNewAgent.full_prompt None (Some "gpt-4") = Some "(model: gpt-4)".
Proof.
  destruct (model_annotation "run swe agent" "gpt-4" None) as [H1 H2].
  - discriminate.
  - split.
    + apply H1. discriminate.
    + apply H2. reflexivity.
Defined.

(** ** The command lines are pairwise distinct *)

Section Commands.
Import Proc Common.

Variable s : Script.
Variable w : World.
Variables prompt workspace model : option string.

Lemma agent_cmd_program :
  exists rest, agent_cmd s prompt model = "cursor-agent" :: rest.
Proof. destruct s; eexists; reflexivity. Qed.

Lemma keystroke_cmd_program :
  exists script,
    keystroke_cmd s prompt model = ["osascript"; "-e"; script]
    /\ script <> activate_script.
Proof.
  destruct s; cbn [keystroke_cmd];
    unfold OpenCursorChat.keystroke_cmd, RunNewAgent.keystroke_cmd;
    eexists; (split; [reflexivity|]);
    match goal with |- context [Py.truthy ?o] => destruct (Py.truthy o) end;
    intros E;
    apply (f_equal (fun t => String.get 0 t)) in E;
    cbv in E; discriminate E.
Qed.

Lemma launch_cmd_program :
  launch_cmd s w workspace = ["cursor"; workspace_path w workspace].
Proof. destruct s; reflexivity. Qed.

Lemma keystroke_cmd_not_activate :
  keystroke_cmd s prompt model <> activate_cmd.
Proof.
  destruct keystroke_cmd_program as (script & -> & Hs).
  unfold activate_cmd. congruence.
Qed.

Lemma keystroke_cmd_not_agent :
  keystroke_cmd s prompt model <> agent_cmd s prompt model.
Proof.
  destruct keystroke_cmd_program as (script & -> & _).
  destruct agent_cmd_program as (rest & ->). discriminate.
Qed.

Lemma launch_cmd_not_agent :
  launch_cmd s w workspace <> agent_cmd s prompt model.
Proof.
  rewrite launch_cmd_program.
  destruct agent_cmd_program as (rest & ->). discriminate.
Qed.

Lemma launch_cmd_not_activate : launch_cmd s w workspace <> activate_cmd.
Proof. rewrite launch_cmd_program. discriminate. Qed.

Lemma launch_cmd_not_keystroke :
  launch_cmd s w workspace <> keystroke_cmd s prompt model.
Proof.
  rewrite launch_cmd_program.
  destruct keystroke_cmd_program as (script & -> & _). discriminate.
Qed.

Lemma activate_cmd_not_agent : activate_cmd <> agent_cmd s prompt model.
Proof. destruct agent_cmd_program as (rest & ->). discriminate. Qed.

End Commands.

(** ** When the chain fails *)

Section Verdict.
Import Proc Common.

Variable w : World.
Variable fp : option string.
Variables acmd kcmd lcmd : list string.

Lemma launch_result_false_iff :
  Chain.launch_result w lcmd = Return false <-> Chain.launcher_absent w lcmd.
Proof.
  unfold Chain.launch_result, Chain.launcher_absent.
  destruct (run_result w lcmd) as [r|e].
  - split; [discriminate | intros [msg H]; discriminate].
  - destruct e as [msg|msg|msg].
    + split; [intros _; now exists msg | reflexivity].
    + split; [discriminate | intros [msg' H]; discriminate].
    + split; [discriminate | intros [msg' H]; discriminate].
Qed.

Lemma verdict_false_iff :
  Chain.verdict w fp acmd kcmd lcmd = Return false
  <-> Chain.agent_ok w fp acmd = false
      /\ (Chain.keystroke w kcmd = Chain.ActivationFailed
          \/ (Chain.keystroke_verdict (Chain.keystroke w kcmd) = None
              /\ Chain.launcher_absent w lcmd)).
Proof.
  unfold Chain.verdict.
  destruct (Chain.agent_ok w fp acmd).
  - split; [discriminate | intros [H _]; discriminate].
  - destruct (Chain.keystroke w kcmd) eqn:K; cbn [Chain.keystroke_verdict];
      rewrite ?launch_result_false_iff;
      split;
      try (intros H; split; [reflexivity|]; auto; fail);
      try discriminate;
      try (intros [_ [H|[H _]]]; try discriminate H; reflexivity);
      try (intros [_ [H|[_ H]]]; try discriminate H; exact H).
Qed.

Lemma activation_failed_iff :
  Chain.keystroke w kcmd = Chain.ActivationFailed
  <-> platform w = "darwin"
      /\ exists a, run_result w activate_cmd = Completed a
                   /\ returncode a <> 0%Z.
Proof.
  unfold Chain.keystroke.
  destruct (String.eqb_spec (platform w) "darwin") as [Hp|Hp].
  - destruct (run_result w activate_cmd) as [a|e].
    + destruct (Z.eqb_spec (returncode a) 0) as [Hz|Hz].
      * split.
        -- destruct (run_result w kcmd) as [k|e]; [|discriminate].
           destruct (returncode k =? 0)%Z; [discriminate|].
           destruct (permission_error (stderr k)); discriminate.
        -- intros (_ & a' & E & Hn). injection E as <-. contradiction.
      * split; [intros _; split; [exact Hp | now exists a] | reflexivity].
    + split; [discriminate | intros (_ & a' & E & _); discriminate].
  - split; [discriminate | intros [H _]; contradiction].
Qed.

End Verdict.

(** ** The dispatchers *)

Section Dispatch.
Import Proc Common.

Variable s : Script.
Variable w : World.
Variables prompt workspace model : option string.

Let fp := effective_prompt s prompt model.
Let acmd := agent_cmd s prompt model.
Let kcmd := keystroke_cmd s prompt model.
Let lcmd := launch_cmd s w workspace.
Let m := dispatcher s w prompt workspace model.

Lemma dispatcher_result : result m = Chain.verdict w fp acmd kcmd lcmd.
Proof.
  unfold m. rewrite dispatcher_is_chain. apply dispatch_result.
Qed.

(** An activation that exits with a non-zero status ends the dispatch. *)
Lemma dispatcher_activation_failed :
  Chain.agent_ok w fp acmd = false ->
  Chain.keystroke w kcmd = Chain.ActivationFailed ->
  m = ((Chain.agent_trace fp acmd ++
        [Spawn activate_cmd;
         Print "⚠️  Could not activate Cursor. Is it installed?"])%list,
       Return false).
Proof.
  intros Ea Ek. unfold m. rewrite dispatcher_is_chain.
  fold fp acmd kcmd lcmd.
  rewrite (dispatch_after_agent w fp acmd kcmd lcmd Ea).
  rewrite (applescript_block_activation_failed w fp kcmd Ek).
  rewrite or_else_returned. reflexivity.
Qed.

(** A refused keystroke ends the dispatch with the guidance printed. *)
Lemma dispatcher_permission_denied (err : string) :
  Chain.agent_ok w fp acmd = false ->
  Chain.keystroke w kcmd = Chain.PermissionDenied err ->
  m = ((Chain.agent_trace fp acmd ++
        Spawn activate_cmd :: Sleep 500 :: Spawn kcmd ::
        map Print permission_guidance ++
        (if Py.truthy fp
         then [Print ("   Then paste this prompt: " ++ Py.fmt fp)]
         else []))%list,
       Return true).
Proof.
  intros Ea Ek. unfold m. rewrite dispatcher_is_chain.
  fold fp acmd kcmd lcmd.
  rewrite (dispatch_after_agent w fp acmd kcmd lcmd Ea).
  rewrite (applescript_block_permission_denied w fp kcmd err Ek).
  rewrite or_else_returned. reflexivity.
Qed.

(** A successful external tool ends the dispatch. *)
Lemma dispatcher_agent_ok :
  Chain.agent_ok w fp acmd = true ->
  m = ([Spawn acmd; Print "✅ Opened chat with cursor-agent CLI"],
       Return true).
Proof.
  intros Ea. unfold m. rewrite dispatcher_is_chain.
  fold fp acmd kcmd lcmd. unfold Chain.dispatch.
  rewrite (agent_block_ok w fp acmd Ea), or_else_returned. reflexivity.
Qed.

(** Without a prompt the external tool is never run. *)
Lemma dispatcher_no_prompt_no_agent (argv : list string) :
  Py.truthy fp = false ->
  ~ spawned ("cursor-agent" :: argv) (trace m).
Proof.
  intros Hf Hs.
  assert (Ea : Chain.agent_ok w fp acmd = false).
  { unfold Chain.agent_ok. now rewrite Hf. }
  unfold m in Hs. rewrite dispatcher_is_chain in Hs.
  fold fp acmd kcmd lcmd in Hs.
  rewrite (dispatch_after_agent w fp acmd kcmd lcmd Ea) in Hs.
  unfold Chain.agent_trace in Hs. rewrite Hf in Hs.
  cbn [trace fst app] in Hs.
  apply fallback_spawns in Hs.
  destruct Hs as [E|[E|E]].
  - discriminate E.
  - unfold kcmd in E.
    destruct (keystroke_cmd_program s prompt model) as (script & K & _).
    rewrite K in E. discriminate E.
  - unfold lcmd in E. rewrite launch_cmd_program in E. discriminate E.
Qed.

(** When neither of the first two blocks returns, the launcher is run. *)
Lemma dispatcher_reaches_launch :
  Chain.agent_ok w fp acmd = false ->
  Chain.keystroke_verdict (Chain.keystroke w kcmd) = None ->
  spawned lcmd (trace m).
Proof.
  intros Ea Ek. unfold m. rewrite dispatcher_is_chain.
  fold fp acmd kcmd lcmd.
  rewrite (dispatch_after_agent w fp acmd kcmd lcmd Ea).
  rewrite (fallback_after_applescript w fp kcmd lcmd Ek).
  cbn [trace fst]. unfold spawned. rewrite !in_app_iff.
  right; right. apply launch_block_launches.
Qed.

(** On macOS a tool that does not succeed is followed by the activation. *)
Lemma dispatcher_reaches_activation :
  Chain.agent_ok w fp acmd = false ->
  platform w = "darwin" ->
  spawned activate_cmd (trace m).
Proof.
  intros Ea Hp. unfold m. rewrite dispatcher_is_chain.
  fold fp acmd kcmd lcmd.
  rewrite (dispatch_after_agent w fp acmd kcmd lcmd Ea).
  cbn [trace fst]. unfold spawned. rewrite in_app_iff. right.
  pose proof (applescript_block_activates w fp kcmd Hp) as Ha.
  pose proof (applescript_block_result w fp kcmd) as Hr.
  destruct (Chain.applescript_block w fp kcmd) as [t r].
  cbn [result snd trace fst] in Hr, Ha. subst r.
  destruct (Chain.keystroke_verdict (Chain.keystroke w kcmd)) as [b|].
  - rewrite or_else_returned. exact Ha.
  - rewrite or_else_fell_through. cbn [fst trace].
    apply in_or_app. left. exact Ha.
Qed.

End Dispatch.

(** ** Claims about the dispatchers *)

Import Proc Common.

(** C5, as stated, fails: on a Mac where the application cannot be
    activated the dispatcher returns failure although the launcher is
    installed. *)
Lemma launcher_absence_sole_failure_fails : ~ launcher_absence_sole_failure.
Proof.
  intros H.
  specialize (H run_new_agent_py Sample.mac_without_app
                (Some "hi") None None eq_refl).
  destruct H as [msg E]. vm_compute in E. discriminate E.
Qed.

(** C5, amended: the dispatcher returns failure exactly when the external
    tool did not succeed and either the macOS activation exited with a
    non-zero status, or the AppleScript block fell through and the launcher
    command is absent.  The other failures are absorbed: a tool that does
    not succeed is followed on macOS by the activation, and an AppleScript
    block that falls through (other platform, exception, keystroke failure
    without the permission text) is followed by the launch. *)
Theorem dispatcher_failure_conditions
  (s : Script) (w : World) (prompt workspace model : option string) :
  let fp := effective_prompt s prompt model in
  let acmd := agent_cmd s prompt model in
  let kcmd := keystroke_cmd s prompt model in
  let lcmd := launch_cmd s w workspace in
  let m := dispatcher s w prompt workspace model in
  (result m = Return false
   <-> Chain.agent_ok w fp acmd = false
       /\ ((platform w = "darwin"
            /\ exists a, run_result w activate_cmd = Completed a
                         /\ returncode a <> 0%Z)
           \/ (Chain.keystroke_verdict (Chain.keystroke w kcmd) = None
               /\ Chain.launcher_absent w lcmd)))
  /\ (Chain.agent_ok w fp acmd = false -> platform w = "darwin" ->
      spawned activate_cmd (trace m))
  /\ (Chain.agent_ok w fp acmd = false ->
      Chain.keystroke_verdict (Chain.keystroke w kcmd) = None ->
      spawned lcmd (trace m)).
Proof.
  intros fp acmd kcmd lcmd m. split; [|split].
  - unfold m. rewrite dispatcher_result.
    fold fp acmd kcmd lcmd.
    rewrite verdict_false_iff, activation_failed_iff. reflexivity.
  - apply dispatcher_reaches_activation.
  - apply dispatcher_reaches_launch.
Qed.

Lemma dispatcher_failure_conditions_witness :
  result (dispatcher run_new_agent_py Sample.bare_linux (Some "hi") None None)
  = Return false
  /\ spawned (launch_cmd run_new_agent_py Sample.bare_linux None)
       (trace (dispatcher run_new_agent_py Sample.bare_linux
                 (Some "hi") None None)).
Proof.
  destruct (dispatcher_failure_conditions run_new_agent_py Sample.bare_linux
              (Some "hi") None None) as (Hiff & _ & Hlaunch).
  split.
  - apply Hiff. split; [reflexivity|]. right. split; [reflexivity|].
    exists "No such file". reflexivity.
  - apply Hlaunch; reflexivity.
Defined.

(** C6: on macOS, when the external tool did not succeed and the
    activation exits with a non-zero status, the dispatcher returns failure
    at once: its last events are the activation and the warning, and neither
    the keystroke script nor the launcher is run. *)
Theorem activation_failure_returns_immediately
  (s : Script) (w : World) (prompt workspace model : option string)
  (a : CompletedProcess) :
  Chain.agent_ok w (effective_prompt s prompt model)
    (agent_cmd s prompt model) = false ->
  platform w = "darwin" ->
  run_result w activate_cmd = Completed a ->
  returncode a <> 0%Z ->
  let m := dispatcher s w prompt workspace model in
  result m = Return false
  /\ trace m
     = (Chain.agent_trace (effective_prompt s prompt model)
          (agent_cmd s prompt model) ++
        [Spawn activate_cmd;
         Print "⚠️  Could not activate Cursor. Is it installed?"])%list
  /\ ~ spawned (keystroke_cmd s prompt model) (trace m)
  /\ ~ spawned (launch_cmd s w workspace) (trace m).
Proof.
  intros Ea Hp Hr Hn m.
  assert (Ek : Chain.keystroke w (keystroke_cmd s prompt model)
               = Chain.ActivationFailed).
  { apply activation_failed_iff. split; [exact Hp|]. now exists a. }
  unfold m. rewrite (dispatcher_activation_failed s w prompt workspace model Ea Ek).
  cbn [result trace fst snd].
  split; [reflexivity|]. split; [reflexivity|].
  unfold spawned. rewrite !in_app_iff. split.
  - intros [H|H].
    + apply agent_trace_spawns in H.
      exact (keystroke_cmd_not_agent s prompt model H).
    + cbn [In] in H. destruct H as [H|[H|[]]]; [|discriminate H].
      injection H as H.
      exact (keystroke_cmd_not_activate s prompt model (eq_sym H)).
  - intros [H|H].
    + apply agent_trace_spawns in H.
      exact (launch_cmd_not_agent s w prompt workspace model H).
    + cbn [In] in H. destruct H as [H|[H|[]]]; [|discriminate H].
      injection H as H.
      exact (launch_cmd_not_activate s w workspace (eq_sym H)).
Qed.

Lemma activation_failure_returns_immediately_witness :
  result (dispatcher open_cursor_chat_py Sample.mac_without_app
            (Some "hi") None None) = Return false
  /\ ~ spawned (launch_cmd open_cursor_chat_py Sample.mac_without_app None)
       (trace (dispatcher open_cursor_chat_py Sample.mac_without_app
                 (Some "hi") None None)).
Proof.
  destruct (activation_failure_returns_immediately open_cursor_chat_py
              Sample.mac_without_app (Some "hi") None None
              (mkCompleted 1 "Application not found"))
    as (H1 & _ & _ & H4).
  - reflexivity.
  - reflexivity.
  - reflexivity.
  - discriminate.
  - split; [exact H1 | exact H4].
Defined.

Lemma run_main_unfold (s : Script) (w : World)
  (tokens : list Argparse.Token) :
  run_main s w tokens
  = match main_call s tokens with
    | Argparse.Parsed c =>
        (trace (dispatcher s w (call_prompt c) (call_workspace c)
                  (call_model c)),
         RunNewAgent.exit_code
           (result (dispatcher s w (call_prompt c) (call_workspace c)
                      (call_model c))))
    | Argparse.SystemExit code => ([], code)
    end.
Proof.
  destruct s; cbn [run_main main_call];
    unfold OpenCursorChat.main, RunNewAgent.main.
  - destruct (OpenCursorChat.parse_args tokens); reflexivity.
  - destruct (RunNewAgent.parse_args tokens); reflexivity.
Qed.

Lemma exit_code_cases (r : Result bool) :
  (RunNewAgent.exit_code r = 0%Z <-> r = Return true)
  /\ (RunNewAgent.exit_code r = 1%Z <-> r <> Return true).
Proof.
  destruct r as [[|]|e]; cbn; repeat split;
    try discriminate; try reflexivity; try congruence.
Qed.




(** The claim fails in three more ways: a launcher that starts and exits
    with a non-zero status gives 0; the help flag gives 0 with nothing
    dispatched; a role outside the set gives 2. *)
Example exit_codes_outside_the_claim :
  run_main run_new_agent_py Sample.linux_launcher_exits_3
    [Argparse.Opt "agent" "swe"]
  = ([Spawn ["cursor-agent"; "-p"; "run swe agent"];
      Spawn ["cursor"; "/home/dev/project"];
      Print "✅ Opened Cursor";
      Print "   💡 Press Cmd+T and paste: run swe agent"],
     0%Z)
  /\ run_main run_new_agent_py Sample.bare_linux [Argparse.Help] = ([], 0%Z)
  /\ run_main run_new_agent_py Sample.with_agent [Argparse.Opt "agent" "foo"]
     = ([], 2%Z)
  /\ run_main open_cursor_chat_py Sample.with_agent
       [Argparse.Opt "agent" "swe"]
     = ([], 2%Z).
Proof. repeat split; reflexivity. Qed.



(** C8: the external tool is run only when there is a (non-empty) resolved
    prompt, and when it exits with status zero the dispatcher returns
    success having run nothing else: no activation, no keystroke script, no
    launcher. *)
Theorem external_tool_success_is_final
  (s : Script) (w : World) (prompt workspace model : option string) :
  let fp := effective_prompt s prompt model in
  let acmd := agent_cmd s prompt model in
  let m := dispatcher s w prompt workspace model in
  (forall argv, spawned ("cursor-agent" :: argv) (trace m) ->
                Py.truthy fp = true)
  /\ (forall r, Py.truthy fp = true ->
                run_result w acmd = Completed r ->
                returncode r = 0%Z ->
                m = ([Spawn acmd; Print "✅ Opened chat with cursor-agent CLI"],
                     Return true)
                /\ ~ spawned activate_cmd (trace m)
                /\ ~ spawned (keystroke_cmd s prompt model) (trace m)
                /\ ~ spawned (launch_cmd s w workspace) (trace m)).
Proof.
  intros fp acmd m. split.
  - intros argv Hs. destruct (Py.truthy fp) eqn:Hf; [reflexivity|].
    exfalso.
    exact (dispatcher_no_prompt_no_agent s w prompt workspace model argv Hf Hs).
  - intros r Hf Hr Hz.
    assert (Ea : Chain.agent_ok w fp acmd = true).
    { unfold Chain.agent_ok. rewrite Hf, Hr, Hz. reflexivity. }
    unfold m. rewrite (dispatcher_agent_ok s w prompt workspace model Ea).
    split; [reflexivity|]. cbn [trace fst]. unfold spawned. cbn [In].
    repeat split; intros [H|[H|[]]]; try discriminate H; injection H as H.
    + exact (activate_cmd_not_agent s prompt model (eq_sym H)).
    + exact (keystroke_cmd_not_agent s prompt model (eq_sym H)).
    + exact (launch_cmd_not_agent s w prompt workspace model (eq_sym H)).
Qed.

Lemma external_tool_success_is_final_witness :
  dispatcher run_new_agent_py Sample.with_agent (Some "hi") None (Some "gpt-4")
  = ([Spawn ["cursor-agent"; "-p"; "hi (model: gpt-4)"; "-m"; "gpt-4"];
      Print "✅ Opened chat with cursor-agent CLI"],
     Return true).
Proof.
  refine (proj1 (proj2 (external_tool_success_is_final run_new_agent_py
                          Sample.with_agent (Some "hi") None (Some "gpt-4"))
                   (mkCompleted 0 "") _ _ _)); reflexivity.
Defined.

(** C9: on macOS, when the external tool did not succeed, the activation
    exits with zero and the keystroke script exits with a non-zero status
    and an error text containing "not allowed to send keystrokes" (or
    "1002"), the dispatcher prints the six lines of guidance about the
    Accessibility permission (and, with a prompt, the prompt to paste) and
    returns success, without running the launcher. *)
Theorem permission_error_is_partial_success
  (s : Script) (w : World) (prompt workspace model : option string)
  (a k : CompletedProcess) :
  Chain.agent_ok w (effective_prompt s prompt model)
    (agent_cmd s prompt model) = false ->
  platform w = "darwin" ->
  run_result w activate_cmd = Completed a ->
  returncode a = 0%Z ->
  run_result w (keystroke_cmd s prompt model) = Completed k ->
  returncode k <> 0%Z ->
  Py.contains "not allowed to send keystrokes" (stderr k) = true
  \/ Py.contains "1002" (stderr k) = true ->
  let fp := effective_prompt s prompt model in
  let m := dispatcher s w prompt workspace model in
  result m = Return true
  /\ trace m
     = (Chain.agent_trace fp (agent_cmd s prompt model) ++
        Spawn activate_cmd :: Sleep 500 ::
        Spawn (keystroke_cmd s prompt model) ::
        Print "⚠️  macOS Accessibility Permission Required" ::
        Print "   To enable keystroke automation:" ::
        Print "   1. Open System Settings → Privacy & Security → Accessibility" ::
        Print "   2. Enable 'Terminal' or 'Python' (whichever you're using)" ::
        Print "   3. Or run this script from Terminal.app (it may already have permissions)" ::
        Print (Py.NL ++
               "   Alternatively, Cursor is now activated - press Cmd+T manually") ::
        (if Py.truthy fp
         then [Print ("   Then paste this prompt: " ++ Py.fmt fp)]
         else []))%list
  /\ ~ spawned (launch_cmd s w workspace) (trace m).
Proof.
  intros Ea Hp Hra Hza Hrk Hzk Herr fp m.
  assert (Ek : Chain.keystroke w (keystroke_cmd s prompt model)
               = Chain.PermissionDenied (stderr k)).
  { unfold Chain.keystroke. rewrite Hp, Hra, Hza, Hrk.
    cbn [String.eqb Ascii.eqb Bool.eqb Z.eqb].
    destruct (Z.eqb_spec (returncode k) 0) as [E|_]; [contradiction|].
    assert (P : permission_error (stderr k) = true).
    { unfold permission_error. apply Bool.orb_true_iff. exact Herr. }
    now rewrite P. }
  unfold m.
  rewrite (dispatcher_permission_denied s w prompt workspace model _ Ea Ek).
  cbn [result trace fst snd]. split; [reflexivity|].
  split; [reflexivity|].
  unfold spawned. rewrite in_app_iff. intros [H|H].
  - apply agent_trace_spawns in H.
    exact (launch_cmd_not_agent s w prompt workspace model H).
  - cbn [In] in H. destruct H as [H|[H|[H|H]]].
    + injection H as H.
      exact (launch_cmd_not_activate s w workspace (eq_sym H)).
    + discriminate H.
    + injection H as H.
      exact (launch_cmd_not_keystroke s w prompt workspace model (eq_sym H)).
    + apply in_app_or in H. destruct H as [H|H].
      * apply in_map_iff in H. destruct H as (x & Hx & _). discriminate Hx.
      * destruct (Py.truthy _); cbn [In] in H;
          [destruct H as [H|[]]; discriminate H | contradiction].
Qed.

Lemma permission_error_is_partial_success_witness :
  result (dispatcher run_new_agent_py Sample.mac_without_permission
            (Some "hi") None None) = Return true
  /\ printed "   1. Open System Settings → Privacy & Security → Accessibility"
       (trace (dispatcher run_new_agent_py Sample.mac_without_permission
                 (Some "hi") None None))
  /\ printed "   Then paste this prompt: hi"
       (trace (dispatcher run_new_agent_py Sample.mac_without_permission
                 (Some "hi") None None)).
Proof.
  destruct (permission_error_is_partial_success run_new_agent_py
              Sample.mac_without_permission (Some "hi") None None
              (mkCompleted 0 "")
              (mkCompleted 1
                 "osascript is not allowed to send keystrokes. (1002)"))
    as (Hres & Htrace & _).
  - reflexivity.
  - reflexivity.
  - reflexivity.
  - reflexivity.
  - reflexivity.
  - discriminate.
  - left. reflexivity.
  - split; [exact Hres|]. unfold printed. rewrite Htrace.
    split; cbn; auto 20.
Defined.

(** ** Sample runs *)

Example run_new_agent_on_mac_without_app :
  RunNewAgent.main Sample.mac_without_app [Argparse.Opt "prompt" "hi"]
  = ([Spawn ["cursor-agent"; "-p"; "hi"];
      Spawn activate_cmd;
      Print "⚠️  Could not activate Cursor. Is it installed?"],
     1%Z).
Proof. reflexivity. Qed.

Example open_cursor_chat_on_bare_linux :
  OpenCursorChat.main Sample.bare_linux []
  = ((Spawn ["cursor"; "/home/dev/project"] :: map Print not_found_guidance)%list,
     1%Z).
Proof. reflexivity. Qed.

Example run_new_agent_with_agent :
  RunNewAgent.main Sample.with_agent [Argparse.Opt "agent" "pm"]
  = ([Spawn ["cursor-agent"; "-p"; "Use @.cursor/rules/pm-agent.mdc"];
      Print "✅ Opened chat with cursor-agent CLI"],
     0%Z).
Proof. reflexivity. Qed.

(** ** More about the escaping function *)

Lemma length_app (a b : string) :
  String.length (a ++ b) = String.length a + String.length b.
Proof. induction a as [|c a IH]; cbn; [reflexivity | now rewrite IH]. Qed.

Lemma escape_both (text : string) :
  OpenCursorChat.escape_applescript_string text
  = Py.subst_chars escape_char text
  /\ RunNewAgent.escape_applescript_string text
     = Py.subst_chars escape_char text.
Proof.
  unfold OpenCursorChat.escape_applescript_string,
         RunNewAgent.escape_applescript_string.
  split; apply escape_by_char.
Qed.

Lemma unescape_subst_chars (s : string) :
  unescape (Py.subst_chars escape_char s) = s.
Proof.
  unfold unescape. induction s as [|c s IH]; [reflexivity|].
  cbn [Py.subst_chars]. unfold escape_char at 1.
  unfold Py.BS, Py.DQ, Py.chr.
  destruct (Ascii.eqb_spec c Py.backslash) as [->|Hb].
  - cbn [String.append unescape_from].
    rewrite Ascii.eqb_refl, IH. reflexivity.
  - destruct (Ascii.eqb_spec c Py.dquote) as [->|Hq].
    + cbn [String.append unescape_from].
      rewrite Ascii.eqb_refl, IH. reflexivity.
    + cbn [String.append unescape_from].
      destruct (Ascii.eqb_spec c Py.backslash); [contradiction|].
      now rewrite IH.
Qed.

Lemma length_subst_chars (s : string) :
  String.length (Py.subst_chars escape_char s)
  = String.length s + count_special s.
Proof.
  induction s as [|c s IH]; [reflexivity|].
  cbn [Py.subst_chars count_special]. rewrite length_app, IH.
  unfold escape_char at 1.
  destruct (Ascii.eqb c Py.backslash); [cbn; now rewrite <- plus_n_Sm|].
  destruct (Ascii.eqb c Py.dquote); cbn; [now rewrite <- plus_n_Sm|].
  reflexivity.
Qed.

Lemma count_special_zero (s : string) :
  count_special s = 0 ->
  ~ Py.occurs Py.backslash s /\ ~ Py.occurs Py.dquote s.
Proof.
  induction s as [|c s IH]; cbn [count_special Py.occurs]; [tauto|].
  destruct (Ascii.eqb_spec c Py.backslash) as [->|Hb]; [discriminate|].
  destruct (Ascii.eqb_spec c Py.dquote) as [->|Hq]; [discriminate|].
  cbn. intros H. destruct (IH H) as [H1 H2]. tauto.
Qed.

(** X1: the escaping loses nothing: two texts with the same escaped form
    are the same text, in either script. *)
Theorem escape_injective (a b : string) :
  (OpenCursorChat.escape_applescript_string a
   = OpenCursorChat.escape_applescript_string b -> a = b)
  /\ (RunNewAgent.escape_applescript_string a
      = RunNewAgent.escape_applescript_string b -> a = b).
Proof.
  destruct (escape_both a) as [Ea1 Ea2], (escape_both b) as [Eb1 Eb2].
  rewrite Ea1, Ea2, Eb1, Eb2.
  assert (H : Py.subst_chars escape_char a = Py.subst_chars escape_char b
              -> a = b).
  { intros E. apply (f_equal unescape) in E.
    now rewrite !unescape_subst_chars in E. }
  split; exact H.
Qed.

Lemma escape_injective_witness :
  ("say " ++ Py.DQ ++ "hi" ++ Py.DQ) = ("say " ++ Py.DQ ++ "hi" ++ Py.DQ).
Proof.
  apply (proj2 (escape_injective ("say " ++ Py.DQ ++ "hi" ++ Py.DQ)
                  ("say " ++ Py.DQ ++ "hi" ++ Py.DQ))).
  reflexivity.
Defined.

(** X2: escaping a concatenation is concatenating the escaped parts. *)
Theorem escape_app (a b : string) :
  RunNewAgent.escape_applescript_string (a ++ b)
  = RunNewAgent.escape_applescript_string a
    ++ RunNewAgent.escape_applescript_string b
  /\ OpenCursorChat.escape_applescript_string (a ++ b)
     = OpenCursorChat.escape_applescript_string a
       ++ OpenCursorChat.escape_applescript_string b.
Proof.
  destruct (escape_both (a ++ b)) as [E1 E2].
  destruct (escape_both a) as [A1 A2], (escape_both b) as [B1 B2].
  rewrite E1, E2, A1, A2, B1, B2, subst_chars_app. split; reflexivity.
Qed.

(** X3: the escaped text is longer than the text by the number of
    backslashes and double quotes in it. *)
Theorem escape_length (text : string) :
  String.length (RunNewAgent.escape_applescript_string text)
  = String.length text + count_special text
  /\ String.length (OpenCursorChat.escape_applescript_string text)
     = String.length text + count_special text.
Proof.
  destruct (escape_both text) as [E1 E2].
  rewrite E1, E2, length_subst_chars. split; reflexivity.
Qed.

(** X4: the escaping leaves a text unchanged only if the text has no
    backslash and no double quote. *)
Theorem escape_fixed_point (text : string) :
  RunNewAgent.escape_applescript_string text = text ->
  ~ Py.occurs Py.backslash text /\ ~ Py.occurs Py.dquote text.
Proof.
  intros E. apply count_special_zero.
  pose proof (proj1 (escape_length text)) as L. rewrite E in L.
  apply (Nat.add_cancel_l _ _ (String.length text)).
  rewrite <- L. now rewrite Nat.add_0_r.
Qed.

Lemma escape_fixed_point_witness :
  ~ Py.occurs Py.backslash "run docs agent"
  /\ ~ Py.occurs Py.dquote "run docs agent".
Proof.
  apply (escape_fixed_point "run docs agent"). reflexivity.
Defined.

(** ** More about the dispatchers *)

(** Case analysis on everything the host can answer along the chain. *)
Ltac chain_cases :=
  unfold Chain.dispatch, Chain.agent_block, Chain.applescript_block,
         Chain.launch_block;
  repeat (py_run;
          match goal with
          | |- context [Py.truthy ?o] => destruct (Py.truthy o) eqn:?
          | |- context [String.eqb (platform ?w) ?p] =>
              destruct (String.eqb (platform w) p) eqn:?
          | |- context [run_result ?w ?c] =>
              destruct (run_result w c) as [?|[?|?|?]] eqn:?
          | |- context [(returncode ?r =? 0)%Z] =>
              destruct (returncode r =? 0)%Z eqn:?
          | |- context [permission_error ?e] =>
              destruct (permission_error e) eqn:?
          end);
  py_run.

Section Order.

Variable w : World.
Variable fp : option string.
Variables ra rk rl : list string.

(** Whatever the host answers, the programs started are taken from the
    priority list, in its order. *)
Lemma dispatch_priority_order :
  subseq
    (programs
       (trace (Chain.dispatch w fp ("cursor-agent" :: ra)
                 ("osascript" :: rk) ("cursor" :: rl))))
    priority_order = true.
Proof. chain_cases; reflexivity. Qed.

End Order.

Section MoreChainFacts.

Variable w : World.
Variable fp : option string.
Variables acmd kcmd lcmd : list string.

Lemma applescript_block_off_mac :
  String.eqb (platform w) "darwin" = false ->
  Chain.applescript_block w fp kcmd = ([], Return None).
Proof. intros H. unfold Chain.applescript_block. now rewrite H. Qed.

(** The keystroke script is sent only after a successful activation. *)
Lemma applescript_block_keystroke_guard :
  kcmd <> activate_cmd ->
  spawned kcmd (trace (Chain.applescript_block w fp kcmd)) ->
  platform w = "darwin"
  /\ exists a, run_result w activate_cmd = Completed a
               /\ returncode a = 0%Z.
Proof.
  intros Hk. unfold Chain.applescript_block.
  destruct (String.eqb_spec (platform w) "darwin") as [Hp|Hp];
    [|intros []].
  py_run.
  destruct (run_result w activate_cmd) as [a|e].
  - destruct (Z.eqb_spec (returncode a) 0) as [Hz|Hz].
    + intros _. split; [exact Hp|]. now exists a.
    + cbv [negb spawned]. cbn [In].
      intros [H|[H|[]]]; [|discriminate H].
      injection H as H. congruence.
  - cbv [spawned]. cbn [In].
    intros [H|[H|[]]]; [|discriminate H].
    injection H as H. congruence.
Qed.

Lemma applescript_block_keystroke_ok :
  Chain.keystroke w kcmd = Chain.KeystrokeOk ->
  Chain.applescript_block w fp kcmd
  = ((Spawn activate_cmd :: Sleep 500 :: Spawn kcmd ::
      Print "✅ Opened new chat in Cursor (using AppleScript)" ::
      (if Py.truthy fp then [Print ("   Prompt: " ++ Py.fmt fp)] else []))%list,
     Return (Some true)).
Proof.
  unfold Chain.applescript_block, Chain.keystroke.
  destruct (String.eqb (platform w) "darwin"); [|discriminate].
  py_run.
  destruct (run_result w activate_cmd) as [a|e]; [|discriminate].
  destruct (returncode a =? 0)%Z; [|discriminate].
  cbv [negb].
  destruct (run_result w kcmd) as [k|e]; [|discriminate].
  destruct (returncode k =? 0)%Z.
  - intros _. destruct (Py.truthy fp); reflexivity.
  - destruct (permission_error (stderr k)); discriminate.
Qed.

(** A failed AppleScript attempt is reported. *)
Lemma applescript_block_reports (line : string) :
  failure_report (Chain.keystroke w kcmd) = Some line ->
  printed line (trace (Chain.applescript_block w fp kcmd)).
Proof.
  unfold Chain.applescript_block, Chain.keystroke.
  destruct (String.eqb (platform w) "darwin"); [|discriminate].
  py_run.
  destruct (run_result w activate_cmd) as [a|e].
  - destruct (returncode a =? 0)%Z; [|discriminate].
    cbv [negb].
    destruct (run_result w kcmd) as [k|e].
    + destruct (returncode k =? 0)%Z; [discriminate|].
      destruct (permission_error (stderr k)); [discriminate|].
      cbn [failure_report]. intros H. injection H as <-. in_trace.
    + cbn [failure_report]. intros H. injection H as <-. in_trace.
  - cbn [failure_report]. intros H. injection H as <-. in_trace.
Qed.

Lemma failure_report_falls_through (line : string) :
  failure_report (Chain.keystroke w kcmd) = Some line ->
  Chain.keystroke_verdict (Chain.keystroke w kcmd) = None.
Proof. destruct (Chain.keystroke w kcmd); cbn; congruence. Qed.

(** Every process of the chain is one of the four command lines. *)
Lemma dispatch_spawns (argv : list string) :
  spawned argv (trace (Chain.dispatch w fp acmd kcmd lcmd)) ->
  argv = acmd \/ argv = activate_cmd \/ argv = kcmd \/ argv = lcmd.
Proof.
  destruct (Chain.agent_ok w fp acmd) eqn:Ea.
  - unfold Chain.dispatch.
    rewrite (agent_block_ok w fp acmd Ea), or_else_returned.
    cbn [trace fst]. spawn_cases.
  - rewrite (dispatch_after_agent w fp acmd kcmd lcmd Ea).
    cbn [trace fst]. unfold spawned. rewrite in_app_iff.
    intros [H|H].
    + left. exact (agent_trace_spawns fp acmd argv H).
    + right. exact (fallback_spawns w fp kcmd lcmd argv H).
Qed.

(** The tool is run whenever there is a prompt. *)
Lemma dispatch_runs_agent :
  Py.truthy fp = true ->
  spawned acmd (trace (Chain.dispatch w fp acmd kcmd lcmd)).
Proof.
  intros Hf. destruct (Chain.agent_ok w fp acmd) eqn:Ea.
  - unfold Chain.dispatch.
    rewrite (agent_block_ok w fp acmd Ea), or_else_returned. in_trace.
  - rewrite (dispatch_after_agent w fp acmd kcmd lcmd Ea).
    cbn [trace fst]. unfold Chain.agent_trace. rewrite Hf.
    unfold spawned. cbn [app In]. auto.
Qed.

Lemma launch_result_true_iff :
  Chain.launch_result w lcmd = Return true
  <-> exists r, run_result w lcmd = Completed r.
Proof.
  unfold Chain.launch_result.
  destruct (run_result w lcmd) as [r|[msg|msg|msg]];
    (split; [intros H; try discriminate H; eauto
            | intros [r' H]; try discriminate H; reflexivity]).
Qed.

Lemma verdict_true_iff :
  Chain.verdict w fp acmd kcmd lcmd = Return true
  <-> Chain.agent_ok w fp acmd = true
      \/ (Chain.agent_ok w fp acmd = false
          /\ (Chain.keystroke w kcmd = Chain.KeystrokeOk
              \/ (exists err,
                     Chain.keystroke w kcmd = Chain.PermissionDenied err)
              \/ (Chain.keystroke_verdict (Chain.keystroke w kcmd) = None
                  /\ exists r, run_result w lcmd = Completed r))).
Proof.
  unfold Chain.verdict. rewrite <- launch_result_true_iff.
  destruct (Chain.agent_ok w fp acmd).
  - split; auto.
  - destruct (Chain.keystroke w kcmd) eqn:K; cbn [Chain.keystroke_verdict];
      (split;
       [ intros H; right; split; [reflexivity|];
         first [ left; reflexivity
               | right; left; eexists; reflexivity
               | right; right; split; [reflexivity | exact H]
               | discriminate H ]
       | intros [H|[_ [H|[[err' H]|[H Hr]]]]];
         try discriminate H; try reflexivity; exact Hr ]).
Qed.

End MoreChainFacts.

Lemma or_else_trace (m : M (option bool)) (k : M bool) (ev : Event) :
  In ev (trace (or_else m k)) -> In ev (trace m) \/ In ev (trace k).
Proof.
  destruct m as [t [[b|]|e]].
  - rewrite or_else_returned. auto.
  - rewrite or_else_fell_through. cbn [trace fst]. apply in_app_or.
  - cbv [or_else bind trace fst]. auto.
Qed.

Lemma keystroke_off_mac (w : World) (kcmd : list string) :
  platform w <> "darwin" -> Chain.keystroke w kcmd = Chain.NotMac.
Proof.
  intros Hp. unfold Chain.keystroke.
  destruct (String.eqb_spec (platform w) "darwin"); [contradiction|].
  reflexivity.
Qed.

(** X5: whatever the host answers, the programs a dispatcher starts are
    taken from the list cursor-agent, osascript, osascript, cursor, in that
    order and each position at most once. *)
Theorem mechanisms_in_priority_order
  (s : Script) (w : World) (prompt workspace model : option string) :
  subseq (programs (trace (dispatcher s w prompt workspace model)))
    priority_order = true.
Proof.
  rewrite dispatcher_is_chain.
  destruct (agent_cmd_program s prompt model) as (ra & ->).
  destruct (keystroke_cmd_program s prompt model) as (script & -> & _).
  rewrite launch_cmd_program.
  apply dispatch_priority_order.
Qed.

(** X6: every process a dispatcher starts is one of four command lines:
    the cursor-agent call, the activation script, the keystroke script, or
    the launcher with the workspace path (the given one, or the working
    directory) as its only argument. *)
Theorem dispatcher_commands
  (s : Script) (w : World) (prompt workspace model : option string)
  (argv : list string) :
  spawned argv (trace (dispatcher s w prompt workspace model)) ->
  argv = agent_cmd s prompt model
  \/ argv = activate_cmd
  \/ argv = keystroke_cmd s prompt model
  \/ argv = ["cursor"; match workspace with
                       | Some p => p
                       | None => cwd w
                       end].
Proof.
  rewrite dispatcher_is_chain. intros H.
  apply dispatch_spawns in H.
  rewrite launch_cmd_program in H. exact H.
Qed.

Lemma dispatcher_commands_witness :
  ["cursor"; "/home/dev/project"] = agent_cmd open_cursor_chat_py None None
  \/ ["cursor"; "/home/dev/project"] = activate_cmd
  \/ ["cursor"; "/home/dev/project"]
     = keystroke_cmd open_cursor_chat_py None None
  \/ ["cursor"; "/home/dev/project"] = ["cursor"; "/home/dev/project"].
Proof.
  apply (dispatcher_commands open_cursor_chat_py Sample.bare_linux
           None None None ["cursor"; "/home/dev/project"]).
  cbv [spawned]. cbn. auto.
Defined.

(** X7: off macOS no osascript process is ever started. *)
Theorem no_applescript_off_mac
  (s : Script) (w : World) (prompt workspace model : option string)
  (rest : list string) :
  platform w <> "darwin" ->
  ~ spawned ("osascript" :: rest)
      (trace (dispatcher s w prompt workspace model)).
Proof.
  intros Hp Hs.
  assert (Hb : String.eqb (platform w) "darwin" = false)
    by (apply String.eqb_neq; exact Hp).
  rewrite dispatcher_is_chain in Hs.
  destruct (agent_cmd_program s prompt model) as (ra & Ea).
  destruct (Chain.agent_ok w (effective_prompt s prompt model)
              (agent_cmd s prompt model)) eqn:Eok.
  - unfold Chain.dispatch in Hs.
    rewrite (agent_block_ok _ _ _ Eok), or_else_returned in Hs.
    rewrite Ea in Hs. cbv [spawned trace fst] in Hs. cbn [In] in Hs.
    destruct Hs as [H|[H|[]]]; discriminate H.
  - rewrite (dispatch_after_agent _ _ _ _ _ Eok) in Hs.
    rewrite applescript_block_off_mac, or_else_fell_through in Hs by exact Hb.
    cbn [trace fst app] in Hs. unfold spawned in Hs.
    apply in_app_or in Hs. destruct Hs as [H|H].
    + apply agent_trace_spawns in H. rewrite Ea in H. discriminate H.
    + apply launch_block_spawns in H.
      rewrite launch_cmd_program in H. discriminate H.
Qed.

Lemma no_applescript_off_mac_witness :
  ~ spawned activate_cmd
      (trace (dispatcher run_new_agent_py Sample.bare_linux
                (Some "hi") None None)).
Proof.
  apply (no_applescript_off_mac run_new_agent_py Sample.bare_linux
           (Some "hi") None None).
  discriminate.
Defined.

(** X9: a dispatcher returns success exactly when the external tool exits
    with zero, or else the keystroke script exits with zero, or is refused
    with the permission text, or else the AppleScript block falls through
    and the launcher can be started, whatever status the launcher exits
    with. *)
Theorem dispatcher_success_conditions
  (s : Script) (w : World) (prompt workspace model : option string) :
  let fp := effective_prompt s prompt model in
  let acmd := agent_cmd s prompt model in
  let kcmd := keystroke_cmd s prompt model in
  result (dispatcher s w prompt workspace model) = Return true
  <-> Chain.agent_ok w fp acmd = true
      \/ (Chain.agent_ok w fp acmd = false
          /\ (Chain.keystroke w kcmd = Chain.KeystrokeOk
              \/ (exists err,
                     Chain.keystroke w kcmd = Chain.PermissionDenied err)
              \/ (Chain.keystroke_verdict (Chain.keystroke w kcmd) = None
                  /\ exists r, run_result w (launch_cmd s w workspace)
                               = Completed r))).
Proof.
  intros fp acmd kcmd. rewrite dispatcher_result. apply verdict_true_iff.
Qed.

Lemma dispatcher_success_conditions_witness :
  result (dispatcher open_cursor_chat_py
            (mkWorld "linux" "/srv"
               (Sample.answers Sample.missing Sample.missing Sample.missing
                  (Sample.exited 3 "")))
            (Some "hi") None None)
  = Return true.
Proof.
  apply (dispatcher_success_conditions open_cursor_chat_py
           (mkWorld "linux" "/srv"
              (Sample.answers Sample.missing Sample.missing Sample.missing
                 (Sample.exited 3 "")))
           (Some "hi") None None).
  right. split; [reflexivity|]. right. right. split; [reflexivity|].
  eexists. reflexivity.
Defined.

(** X10: the keystroke script is sent only on macOS, after the external
    tool did not succeed and the activation exited with zero. *)
Theorem keystroke_only_after_activation
  (s : Script) (w : World) (prompt workspace model : option string) :
  spawned (keystroke_cmd s prompt model)
    (trace (dispatcher s w prompt workspace model)) ->
  Chain.agent_ok w (effective_prompt s prompt model)
    (agent_cmd s prompt model) = false
  /\ platform w = "darwin"
  /\ exists a, run_result w activate_cmd = Completed a
               /\ returncode a = 0%Z.
Proof.
  rewrite dispatcher_is_chain. intros Hs.
  destruct (Chain.agent_ok w (effective_prompt s prompt model)
              (agent_cmd s prompt model)) eqn:Ea.
  - exfalso. unfold Chain.dispatch in Hs.
    rewrite (agent_block_ok _ _ _ Ea), or_else_returned in Hs.
    cbv [spawned trace fst] in Hs. cbn [In] in Hs.
    destruct Hs as [H|[H|[]]]; [|discriminate H].
    injection H as H.
    exact (keystroke_cmd_not_agent s prompt model (eq_sym H)).
  - split; [reflexivity|].
    rewrite (dispatch_after_agent _ _ _ _ _ Ea) in Hs.
    cbn [trace fst] in Hs. unfold spawned in Hs.
    apply in_app_or in Hs. destruct Hs as [H|H].
    + exfalso. apply agent_trace_spawns in H.
      exact (keystroke_cmd_not_agent s prompt model H).
    + apply or_else_trace in H. destruct H as [H|H].
      * apply (applescript_block_keystroke_guard w
                 (effective_prompt s prompt model)
                 (keystroke_cmd s prompt model)).
        -- apply keystroke_cmd_not_activate.
        -- exact H.
      * exfalso. apply launch_block_spawns in H.
        exact (launch_cmd_not_keystroke s w prompt workspace model
                 (eq_sym H)).
Qed.

Lemma keystroke_only_after_activation_witness :
  platform Sample.mac_without_permission = "darwin".
Proof.
  refine (proj1 (proj2 (keystroke_only_after_activation run_new_agent_py
                          Sample.mac_without_permission
                          (Some "hi") None None _))).
  cbv [spawned]. cbn. auto.
Defined.

(** X11: the launcher is started exactly when it is the last resort: the
    external tool did not succeed and the AppleScript block fell through
    (other platform, exception, keystroke failure without the permission
    text). *)
Theorem launcher_is_last_resort
  (s : Script) (w : World) (prompt workspace model : option string) :
  spawned (launch_cmd s w workspace)
    (trace (dispatcher s w prompt workspace model))
  <-> Chain.agent_ok w (effective_prompt s prompt model)
        (agent_cmd s prompt model) = false
      /\ Chain.keystroke_verdict
           (Chain.keystroke w (keystroke_cmd s prompt model)) = None.
Proof.
  split.
  - rewrite dispatcher_is_chain. intros Hs.
    destruct (Chain.agent_ok w (effective_prompt s prompt model)
                (agent_cmd s prompt model)) eqn:Ea.
    + exfalso. unfold Chain.dispatch in Hs.
      rewrite (agent_block_ok _ _ _ Ea), or_else_returned in Hs.
      cbv [spawned trace fst] in Hs. cbn [In] in Hs.
      destruct Hs as [H|[H|[]]]; [|discriminate H].
      injection H as H.
      exact (launch_cmd_not_agent s w prompt workspace model (eq_sym H)).
    + split; [reflexivity|].
      rewrite (dispatch_after_agent _ _ _ _ _ Ea) in Hs.
      cbn [trace fst] in Hs. unfold spawned in Hs.
      apply in_app_or in Hs. destruct Hs as [H|H].
      * exfalso. apply agent_trace_spawns in H.
        exact (launch_cmd_not_agent s w prompt workspace model H).
      * pose proof (applescript_block_spawns w
                      (effective_prompt s prompt model)
                      (keystroke_cmd s prompt model)
                      (launch_cmd s w workspace)) as Ha.
        pose proof (applescript_block_result w
                      (effective_prompt s prompt model)
                      (keystroke_cmd s prompt model)) as Hr.
        destruct (Chain.applescript_block w _ _) as [t r].
        cbn [result snd trace fst] in Hr, Ha. subst r.
        destruct (Chain.keystroke_verdict _) as [b|]; [|reflexivity].
        exfalso. rewrite or_else_returned in H. cbn [trace fst] in H.
        destruct (Ha H) as [E|E].
        -- exact (launch_cmd_not_activate s w workspace E).
        -- exact (launch_cmd_not_keystroke s w prompt workspace model E).
  - intros [Ea Ek].
    exact (dispatcher_reaches_launch s w prompt workspace model Ea Ek).
Qed.

Lemma launcher_is_last_resort_witness :
  spawned (launch_cmd open_cursor_chat_py Sample.bare_linux (Some "/w"))
    (trace (dispatcher open_cursor_chat_py Sample.bare_linux
              None (Some "/w") None)).
Proof.
  apply (launcher_is_last_resort open_cursor_chat_py Sample.bare_linux
           None (Some "/w") None).
  split; reflexivity.
Defined.

(** X12: a dispatcher runs the external tool exactly when its effective
    prompt is non-empty; for run_new_agent.py that is when the prompt or
    the model name is non-empty, so a model name alone is enough. *)
Theorem agent_tool_run_iff_prompt
  (s : Script) (w : World) (prompt workspace model : option string) :
  (spawned (agent_cmd s prompt model)
     (trace (dispatcher s w prompt workspace model))
   <-> Py.truthy (effective_prompt s prompt model) = true)
  /\ Py.truthy (effective_prompt run_new_agent_py prompt model)
     = Py.truthy prompt || Py.truthy model.
Proof.
  split.
  - split.
    + intros Hs.
      destruct (Py.truthy (effective_prompt s prompt model)) eqn:Hf;
        [reflexivity|].
      exfalso. destruct (agent_cmd_program s prompt model) as (ra & Ea).
      rewrite Ea in Hs.
      exact (dispatcher_no_prompt_no_agent s w prompt workspace model ra
               Hf Hs).
    + intros Hf. rewrite dispatcher_is_chain.
      apply dispatch_runs_agent. exact Hf.
  - cbn [effective_prompt]. unfold RunNewAgent.full_prompt.
    destruct model as [[|c m]|], prompt as [[|d p]|]; reflexivity.
Qed.

Lemma agent_tool_run_iff_prompt_witness :
  spawned (agent_cmd run_new_agent_py None (Some "gpt-4"))
    (trace (dispatcher run_new_agent_py Sample.bare_linux
              None None (Some "gpt-4"))).
Proof.
  apply (proj1 (agent_tool_run_iff_prompt run_new_agent_py Sample.bare_linux
                  None None (Some "gpt-4"))).
  reflexivity.
Defined.

(** X13: a role and a model name compose: with a role from the recognised
    set, no explicit prompt and a non-empty model name [m], the prompt the
    dispatcher works with is the role's instruction followed by
    " (model: m)", and cursor-agent gets it after -p and [m] after -m. *)
Theorem role_with_model (args : RunNewAgent.Args) (role m : string) :
  RunNewAgent.agent args = Some role ->
  In role RunNewAgent.choices ->
  Py.truthy (RunNewAgent.prompt args) = false ->
  RunNewAgent.model args = Some m ->
  m <> "" ->
  exists instruction,
    lookup role canned_prompts = Some instruction
    /\ RunNewAgent.full_prompt (RunNewAgent.resolve_prompt args)
         (RunNewAgent.model args)
       = Some (instruction ++ " (model: " ++ m ++ ")")
    /\ RunNewAgent.agent_cmd
         (RunNewAgent.full_prompt (RunNewAgent.resolve_prompt args)
            (RunNewAgent.model args))
         (RunNewAgent.model args)
       = ["cursor-agent"; "-p"; instruction ++ " (model: " ++ m ++ ")";
          "-m"; m].
Proof.
  intros Ha Hin Hp Hm Hne.
  unfold RunNewAgent.resolve_prompt, RunNewAgent.agent_cmd,
         RunNewAgent.full_prompt.
  rewrite Hp, Ha, Hm, (truthy_nonempty _ Hne).
  cbn in Hin.
  destruct Hin as [<-|[<-|[<-|[<-|[]]]]];
    eexists; (split; [reflexivity|]); split; reflexivity.
Qed.

Lemma role_with_model_witness :
  exists instruction,
    lookup "swe" canned_prompts = Some instruction
    /\ RunNewAgent.full_prompt
         (RunNewAgent.resolve_prompt
            (RunNewAgent.mkArgs (Some "swe") (Some "claude-3.5-sonnet")
               None None))
         (Some "claude-3.5-sonnet")
       = Some (instruction ++ " (model: " ++ "claude-3.5-sonnet" ++ ")").
Proof.
  destruct (role_with_model
              (RunNewAgent.mkArgs (Some "swe") (Some "claude-3.5-sonnet")
                 None None)
              "swe" "claude-3.5-sonnet")
    as (i & H1 & H2 & _).
  - reflexivity.
  - cbn; auto.
  - reflexivity.
  - reflexivity.
  - discriminate.
  - exists i. split; [exact H1 | exact H2].
Defined.

(** X14: without a model name the two dispatchers do the same thing,
    event for event, on every host that is not macOS and, on macOS, when
    there is no prompt to type. *)
Theorem scripts_agree_without_model
  (w : World) (prompt workspace model : option string) :
  Py.truthy model = false ->
  platform w <> "darwin" \/ Py.truthy prompt = false ->
  RunNewAgent.open_cursor_chat_hybrid w prompt workspace model
  = OpenCursorChat.open_cursor_chat_hybrid w prompt workspace.
Proof.
  intros Hm Hcase.
  change (dispatcher run_new_agent_py w prompt workspace model
          = dispatcher open_cursor_chat_py w prompt workspace model).
  rewrite !dispatcher_is_chain.
  cbn [effective_prompt agent_cmd keystroke_cmd launch_cmd].
  unfold RunNewAgent.full_prompt, RunNewAgent.agent_cmd. rewrite Hm.
  cbn [andb app].
  change (RunNewAgent.launch_cmd w workspace)
    with (OpenCursorChat.launch_cmd w workspace).
  change ["cursor-agent"; "-p"; Py.fmt prompt]
    with (OpenCursorChat.agent_cmd prompt).
  destruct Hcase as [Hp|Hp].
  - unfold Chain.dispatch.
    rewrite !applescript_block_off_mac
      by (apply String.eqb_neq; exact Hp).
    reflexivity.
  - unfold RunNewAgent.keystroke_cmd, OpenCursorChat.keystroke_cmd.
    rewrite Hp. reflexivity.
Qed.

Lemma scripts_agree_without_model_witness :
  RunNewAgent.open_cursor_chat_hybrid Sample.bare_linux (Some "hi") None None
  = OpenCursorChat.open_cursor_chat_hybrid Sample.bare_linux (Some "hi") None.
Proof.
  apply (scripts_agree_without_model Sample.bare_linux (Some "hi") None None).
  - reflexivity.
  - left. discriminate.
Defined.

(** X15: on macOS, when the external tool did not succeed and both the
    activation and the keystroke script exit with zero, the run is: the
    tool's attempt, the activation, the pause, the keystroke script, the
    success line and, with a prompt, the prompt line; the result is
    success. *)
Theorem keystroke_success_path
  (s : Script) (w : World) (prompt workspace model : option string)
  (a k : CompletedProcess) :
  let fp := effective_prompt s prompt model in
  Chain.agent_ok w fp (agent_cmd s prompt model) = false ->
  platform w = "darwin" ->
  run_result w activate_cmd = Completed a ->
  returncode a = 0%Z ->
  run_result w (keystroke_cmd s prompt model) = Completed k ->
  returncode k = 0%Z ->
  dispatcher s w prompt workspace model
  = ((Chain.agent_trace fp (agent_cmd s prompt model) ++
      Spawn activate_cmd :: Sleep 500 ::
      Spawn (keystroke_cmd s prompt model) ::
      Print "✅ Opened new chat in Cursor (using AppleScript)" ::
      (if Py.truthy fp then [Print ("   Prompt: " ++ Py.fmt fp)] else []))%list,
     Return true).
Proof.
  intros fp Ea Hp Hra Hza Hrk Hzk.
  assert (Ek : Chain.keystroke w (keystroke_cmd s prompt model)
               = Chain.KeystrokeOk).
  { unfold Chain.keystroke. rewrite Hp, Hra, Hza, Hrk, Hzk. reflexivity. }
  rewrite dispatcher_is_chain. fold fp.
  rewrite (dispatch_after_agent _ _ _ _ _ Ea).
  rewrite (applescript_block_keystroke_ok w fp _ Ek).
  rewrite or_else_returned. reflexivity.
Qed.

Lemma keystroke_success_path_witness :
  result
    (dispatcher open_cursor_chat_py
       (mkWorld "darwin" "/Users/dev"
          (Sample.answers Sample.missing (Sample.exited 0 "")
             (Sample.exited 0 "") Sample.missing))
       None None None)
  = Return true.
Proof.
  rewrite (keystroke_success_path open_cursor_chat_py
             (mkWorld "darwin" "/Users/dev"
                (Sample.answers Sample.missing (Sample.exited 0 "")
                   (Sample.exited 0 "") Sample.missing))
             None None None (mkCompleted 0 "") (mkCompleted 0 ""));
    reflexivity.
Defined.

(** X16: when the external tool did not succeed and the AppleScript
    attempt fails in a way that is not the activation status and not the
    permission text (osascript raises, or the keystroke script exits with
    a non-zero status), the failure is printed with its error text, the
    launcher is started, and the result is that of the launch. *)
Theorem applescript_failure_reported
  (s : Script) (w : World) (prompt workspace model : option string)
  (line : string) :
  Chain.agent_ok w (effective_prompt s prompt model)
    (agent_cmd s prompt model) = false ->
  failure_report (Chain.keystroke w (keystroke_cmd s prompt model))
  = Some line ->
  let m := dispatcher s w prompt workspace model in
  printed line (trace m)
  /\ spawned (launch_cmd s w workspace) (trace m)
  /\ result m = Chain.launch_result w (launch_cmd s w workspace).
Proof.
  intros Ea Hr m.
  pose proof (failure_report_falls_through _ _ _ Hr) as Ek.
  split; [|split].
  - unfold m. rewrite dispatcher_is_chain.
    rewrite (dispatch_after_agent _ _ _ _ _ Ea).
    rewrite (fallback_after_applescript _ _ _ _ Ek).
    cbn [trace fst]. unfold printed. rewrite !in_app_iff.
    right; left.
    exact (applescript_block_reports w _ _ line Hr).
  - exact (dispatcher_reaches_launch s w prompt workspace model Ea Ek).
  - unfold m. rewrite dispatcher_result. unfold Chain.verdict.
    rewrite Ea, Ek. reflexivity.
Qed.

Lemma applescript_failure_reported_witness :
  printed "⚠️  AppleScript method failed: syntax error"
    (trace
       (dispatcher run_new_agent_py
          (mkWorld "darwin" "/Users/dev"
             (Sample.answers Sample.missing (Sample.exited 0 "")
                (Sample.exited 1 "syntax error") (Sample.exited 0 "")))
          (Some "hi") None None)).
Proof.
  refine (proj1 (applescript_failure_reported run_new_agent_py
                   (mkWorld "darwin" "/Users/dev"
                      (Sample.answers Sample.missing (Sample.exited 0 "")
                         (Sample.exited 1 "syntax error")
                         (Sample.exited 0 "")))
                   (Some "hi") None None
                   "⚠️  AppleScript method failed: syntax error" _ _));
    reflexivity.
Defined.

(** X17: on a host that is not macOS and where the launcher can be
    started, either script, given a command line argparse accepts, exits
    with status 0, whatever the external tool does and whatever status the
    launcher exits with. *)
Theorem launcher_off_mac_exits_zero
  (s : Script) (w : World) (tokens : list Argparse.Token) (c : Call)
  (r : CompletedProcess) :
  main_call s tokens = Argparse.Parsed c ->
  platform w <> "darwin" ->
  run_result w (launch_cmd s w (call_workspace c)) = Completed r ->
  snd (run_main s w tokens) = 0%Z.
Proof.
  intros Hc Hp Hr. rewrite run_main_unfold, Hc. cbn [snd].
  apply exit_code_cases. rewrite dispatcher_result.
  apply verdict_true_iff.
  destruct (Chain.agent_ok w _ _); [left; reflexivity|].
  right. split; [reflexivity|]. right. right.
  rewrite (keystroke_off_mac w _ Hp). split; [reflexivity|].
  now exists r.
Qed.

Lemma launcher_off_mac_exits_zero_witness :
  snd (run_main run_new_agent_py
         (mkWorld "linux" "/srv"
            (Sample.answers (Raises (TimeoutExpired "timed out"))
               Sample.missing Sample.missing (Sample.exited 2 "")))
         [Argparse.Opt "agent" "docs"])
  = 0%Z.
Proof.
  apply (launcher_off_mac_exits_zero run_new_agent_py
           (mkWorld "linux" "/srv"
              (Sample.answers (Raises (TimeoutExpired "timed out"))
                 Sample.missing Sample.missing (Sample.exited 2 "")))
           [Argparse.Opt "agent" "docs"]
           (mkCall (Some "run docs agent") None None)
           (mkCompleted 2 "")).
  - reflexivity.
  - discriminate.
  - reflexivity.
Defined.

Section LaunchFacts.

Variable w : World.
Variable fp : option string.
Variable lcmd : list string.

Lemma launch_block_completed (r : CompletedProcess) :
  run_result w lcmd = Completed r ->
  Chain.launch_block w fp lcmd
  = ([Spawn lcmd; Print "✅ Opened Cursor";
      Print (if Py.truthy fp
             then "   💡 Press Cmd+T and paste: " ++ Py.fmt fp
             else "   💡 Press Cmd+T to open a new chat")],
     Return true).
Proof.
  intros Hr. unfold Chain.launch_block. py_run. rewrite Hr.
  destruct (Py.truthy fp); reflexivity.
Qed.

Lemma launch_block_missing (msg : string) :
  run_result w lcmd = Raises (FileNotFoundError msg) ->
  Chain.launch_block w fp lcmd
  = ((Spawn lcmd :: map Print not_found_guidance)%list, Return false).
Proof.
  intros Hr. unfold Chain.launch_block. py_run. rewrite Hr. reflexivity.
Qed.

End LaunchFacts.

(** X18: when the launcher is reached and can be started, the run ends
    with the launch, the line "Opened Cursor" and the manual next step: the
    prompt to paste when there is one, the key to press otherwise; the
    result is success. *)
Theorem launch_prints_next_step
  (s : Script) (w : World) (prompt workspace model : option string)
  (r : CompletedProcess) :
  let fp := effective_prompt s prompt model in
  Chain.agent_ok w fp (agent_cmd s prompt model) = false ->
  Chain.keystroke_verdict (Chain.keystroke w (keystroke_cmd s prompt model))
  = None ->
  run_result w (launch_cmd s w workspace) = Completed r ->
  exists before,
    dispatcher s w prompt workspace model
    = ((before ++
        [Spawn (launch_cmd s w workspace); Print "✅ Opened Cursor";
         Print (if Py.truthy fp
                then "   💡 Press Cmd+T and paste: " ++ Py.fmt fp
                else "   💡 Press Cmd+T to open a new chat")])%list,
       Return true).
Proof.
  intros fp Ea Ek Hr. rewrite dispatcher_is_chain. fold fp.
  rewrite (dispatch_after_agent _ _ _ _ _ Ea).
  rewrite (fallback_after_applescript _ _ _ _ Ek).
  rewrite (launch_block_completed w fp _ r Hr).
  cbn [trace result fst snd]. rewrite app_assoc.
  eexists. reflexivity.
Qed.

Lemma launch_prints_next_step_witness :
  exists before,
    dispatcher open_cursor_chat_py
      (mkWorld "linux" "/srv"
         (Sample.answers Sample.missing Sample.missing Sample.missing
            (Sample.exited 0 "")))
      (Some "hi") None None
    = ((before ++
        [Spawn ["cursor"; "/srv"]; Print "✅ Opened Cursor";
         Print "   💡 Press Cmd+T and paste: hi"])%list,
       Return true).
Proof.
  apply (launch_prints_next_step open_cursor_chat_py
           (mkWorld "linux" "/srv"
              (Sample.answers Sample.missing Sample.missing Sample.missing
                 (Sample.exited 0 "")))
           (Some "hi") None None (mkCompleted 0 ""));
    reflexivity.
Defined.

(** X19: when the launcher is reached and is absent, the run ends with
    the launch attempt and the three lines of installation guidance, and
    the result is failure. *)
Theorem launcher_absent_guidance
  (s : Script) (w : World) (prompt workspace model : option string)
  (msg : string) :
  Chain.agent_ok w (effective_prompt s prompt model)
    (agent_cmd s prompt model) = false ->
  Chain.keystroke_verdict (Chain.keystroke w (keystroke_cmd s prompt model))
  = None ->
  run_result w (launch_cmd s w workspace) = Raises (FileNotFoundError msg) ->
  exists before,
    dispatcher s w prompt workspace model
    = ((before ++
        [Spawn (launch_cmd s w workspace);
         Print "❌ Cursor CLI not found.";
         Print "   Install it with: curl https://cursor.com/install -fsS | bash";
         Print "   Or use AppleScript method (macOS only)"])%list,
       Return false).
Proof.
  intros Ea Ek Hr. rewrite dispatcher_is_chain.
  rewrite (dispatch_after_agent _ _ _ _ _ Ea).
  rewrite (fallback_after_applescript _ _ _ _ Ek).
  rewrite (launch_block_missing w _ _ msg Hr).
  cbn [trace result fst snd]. rewrite app_assoc.
  eexists. reflexivity.
Qed.

Lemma launcher_absent_guidance_witness :
  exists before,
    dispatcher run_new_agent_py Sample.bare_linux (Some "hi") None None
    = ((before ++
        [Spawn ["cursor"; "/home/dev/project"];
         Print "❌ Cursor CLI not found.";
         Print "   Install it with: curl https://cursor.com/install -fsS | bash";
         Print "   Or use AppleScript method (macOS only)"])%list,
       Return false).
Proof.
  apply (launcher_absent_guidance run_new_agent_py Sample.bare_linux
           (Some "hi") None None "No such file");
    reflexivity.
Defined.
